(** * The Iris prediction API ([app/api.py]): a shallow embedding

    The module under study is a FastAPI application.  At start-up its
    [lifespan] handler unpickles every [*.pkl] file of [models/] into the
    module-level list [model_wrappers_list]; three endpoints read that list
    and answer with a JSON envelope built by the [construct_response]
    decorator; at shut-down the list is cleared.

    Python values are embedded as a small universe [value]; a [dict] is an
    association list in insertion order; exceptions are explicit ([result]);
    the module-level list is the store of a state-and-exception monad [M].
    What the program obtains from outside (the clock, the hidden state an
    opaque classifier may consult) is read from an environment [Env]. *)

From Stdlib Require Import List String Ascii ZArith Bool Lia PrimFloat.
Import ListNotations.
Local Open Scope string_scope.
Local Open Scope Z_scope.

Set Warnings "-register-all".

(** ** Exceptions and results *)

Inductive exn : Type :=
| KeyError (key : string)
| TypeError
| ValueError
| IndexError
| OSError (reason : string)
| AttributeError
| UnpicklingError
| ModelError (reason : string).

Inductive result (A : Type) : Type :=
| Ok (a : A)
| Raise (e : exn).

Arguments Ok {A} a.
Arguments Raise {A} e.

(** ** Python values *)

(** An unpickled classifier is opaque: all the program does with it is call
    [predict] on a 2-D array of features and index the array it returns.
    The first argument stands for whatever state of its own the object
    consults besides its argument. *)
Record Classifier : Type := {
  predict : nat -> list (list float) -> result (list Z)
}.

Inductive value : Type :=
| VNone
| VBool (b : bool)
| VInt (z : Z)
| VFloat (f : float)
| VStr (s : string)
| VList (l : list value)
| VDict (d : list (string * value))
| VObj (c : Classifier).

Definition dict := list (string * value).

(** [d.get(k)] as an option. *)
Fixpoint dict_get (d : dict) (k : string) : option value :=
  match d with
  | [] => None
  | (k', v) :: rest => if String.eqb k' k then Some v else dict_get rest k
  end.

(** [k in d]. *)
Definition dict_contains (d : dict) (k : string) : bool :=
  match dict_get d k with Some _ => true | None => false end.

(** [d[k] = v]: overwrite in place, or append a new key at the end. *)
Fixpoint dict_set (d : dict) (k : string) (v : value) : dict :=
  match d with
  | [] => [(k, v)]
  | (k', v') :: rest =>
      if String.eqb k' k then (k', v) :: rest else (k', v') :: dict_set rest k v
  end.

Definition dict_keys (d : dict) : list string := map fst d.

(** [v[k]] with a string subscript. *)
Definition getitem (v : value) (k : string) : result value :=
  match v with
  | VDict d => match dict_get d k with
               | Some x => Ok x
               | None => Raise (KeyError k)
               end
  | _ => Raise TypeError
  end.

(** [k in v]. *)
Definition contains (v : value) (k : string) : result bool :=
  match v with
  | VDict d => Ok (dict_contains d k)
  | _ => Raise TypeError
  end.

(** [v == s] for a [str] [s]. *)
Definition eq_str (v : value) (s : string) : bool :=
  match v with
  | VStr t => String.eqb t s
  | _ => false
  end.

(** Truth value of an object, as tested by [if v:]. *)
Definition truthy (v : value) : bool :=
  match v with
  | VNone => false
  | VBool b => b
  | VInt z => negb (z =? 0)
  | VFloat f => negb (PrimFloat.eqb f 0%float)
  | VStr s => negb (String.eqb s "")
  | VList l => match l with [] => false | _ => true end
  | VDict d => match d with [] => false | _ => true end
  | VObj _ => true
  end.

(** ** [http.HTTPStatus] *)

Module HTTPStatus.
Inductive t : Type := OK | BAD_REQUEST.
Definition value (s : t) : Z :=
  match s with OK => 200 | BAD_REQUEST => 400 end.
Definition phrase (s : t) : string :=
  match s with OK => "OK" | BAD_REQUEST => "Bad Request" end.
End HTTPStatus.

(** An [HTTPStatus] member is an [int]. *)
Definition VStatus (s : HTTPStatus.t) : value := VInt (HTTPStatus.value s).

(** ** [pathlib.PurePath.suffix] of a directory entry's name *)

Fixpoint rfind (c : ascii) (s : string) : option nat :=
  match s with
  | EmptyString => None
  | String a rest =>
      match rfind c rest with
      | Some i => Some (S i)
      | None => if Ascii.eqb a c then Some O else None
      end
  end.

Definition suffix (name : string) : string :=
  match rfind "."%char name with
  | Some i =>
      if (Nat.ltb 0 i && Nat.ltb i (String.length name - 1))%bool
      then String.substring i (String.length name - i) name
      else ""
  | None => ""
  end.

(** ** Requests, payloads and the environment *)

(** The two attributes of [fastapi.Request] the program reads:
    [request.method] and [request.url._url]. *)
Record Request : Type := {
  method : string;
  url : string
}.

(** Modelled from the spec: [PredictPayload] of [app/schemas.py], the
    validated request body with four float fields. *)
Record PredictPayload : Type := {
  sepal_length : float;
  sepal_width : float;
  petal_length : float;
  petal_width : float
}.

(** An entry of [MODELS_DIR]: its name, and the outcome of
    [open(path, "rb")] followed by [pickle.load(file)] on it. *)
Record DirEntry : Type := {
  filename : string;
  unpickled : result value
}.

Record Env : Type := {
  now_isoformat : string;   (* what [datetime.now().isoformat()] yields *)
  hidden : nat;             (* state an opaque classifier may consult *)
  iterdir : result (list DirEntry)   (* [MODELS_DIR.iterdir()] *)
}.

(** ** The monad: module-level store, environment, exceptions *)

Definition store := list value.   (* [model_wrappers_list] *)

Definition M (A : Type) : Type := Env -> store -> result A * store.

Definition ret {A} (a : A) : M A := fun _ s => (Ok a, s).

Definition bind {A B} (m : M A) (k : A -> M B) : M B :=
  fun env s =>
    match m env s with
    | (Ok a, s') => k a env s'
    | (Raise e, s') => (Raise e, s')
    end.

Definition lift {A} (r : result A) : M A := fun _ s => (r, s).

Definition ask : M Env := fun env s => (Ok env, s).

Definition read_models : M (list value) := fun _ s => (Ok s, s).

Definition append_model (v : value) : M unit := fun _ s => (Ok tt, (s ++ [v])%list).

Definition clear_models : M unit := fun _ _ => (Ok tt, []).

Declare Scope py_scope.
Delimit Scope py_scope with py.
Notation "x <- m ;; k" := (bind m (fun x => k))
  (at level 100, m at next level, right associativity) : py_scope.
Notation "m ;;; k" := (bind m (fun _ => k))
  (at level 100, right associativity) : py_scope.
Local Open Scope py_scope.

(** ** Enumerations *)

(** A Python [Enum] class: its members, as (name, value) pairs in definition
    order.  [IrisType] of [app/schemas.py] is such a class; the endpoints
    below take it as a parameter. *)
Definition Enum := list (string * Z).

(** [E(v)]: the first member defined with value [v], else [ValueError]. *)
Definition enum_by_value (E : Enum) (v : Z) : result (string * Z) :=
  match find (fun m => snd m =? v) E with
  | Some m => Ok m
  | None => Raise ValueError
  end.

(** [member.name]. *)
Definition enum_name (m : string * Z) : string := fst m.

Definition enum_names (E : Enum) : list string := map fst E.

(** ** [construct_response] *)

Definition construct_response {Args : Type} (f : Request -> Args -> M value)
  : Request -> Args -> M value :=
  fun request args =>
    results <- f request args ;;
    message <- lift (getitem results "message") ;;
    status_code <- lift (getitem results "status-code") ;;
    env <- ask ;;
    let response :=
      [ ("message", message);
        ("method", VStr (method request));
        ("status-code", status_code);
        ("timestamp", VStr (now_isoformat env));
        ("url", VStr (url request)) ] in
    has_data <- lift (contains results "data") ;;
    if has_data : bool then
      data <- lift (getitem results "data") ;;
      ret (VDict (dict_set response "data" data))
    else
      ret (VDict response).

(** ** The endpoints *)

Definition welcome : string :=
  "Welcome to IRIS classifier! Please, read the `/docs`!".

Definition _index (request : Request) (_ : unit) : M value :=
  ret (VDict
         [ ("message", VStr (HTTPStatus.phrase HTTPStatus.OK));
           ("status-code", VStatus HTTPStatus.OK);
           ("data", VDict [("message", VStr welcome)]) ]).

(** One item of the comprehension of [_get_models_list]. *)
Definition available_model (model : value) : M value :=
  ty <- lift (getitem model "type") ;;
  params <- lift (getitem model "params") ;;
  metrics <- lift (getitem model "metrics") ;;
  ret (VDict [("type", ty); ("parameters", params); ("accuracy", metrics)]).

(** [[f(x) for x in l]]. *)
Fixpoint comprehension {A B : Type} (f : A -> M B) (l : list A) : M (list B) :=
  match l with
  | [] => ret []
  | x :: rest =>
      y <- f x ;;
      ys <- comprehension f rest ;;
      ret (y :: ys)
  end.

Definition _get_models_list (request : Request) (_ : unit) : M value :=
  models <- read_models ;;
  available_models <- comprehension available_model models ;;
  ret (VDict
         [ ("message", VStr (HTTPStatus.phrase HTTPStatus.OK));
           ("status-code", VStatus HTTPStatus.OK);
           ("data", VList available_models) ]).

(** [next((m for m in models if m["type"] == type), None)]: the generator
    is consumed up to its first item only. *)
Fixpoint next_match (models : list value) (type : string) : M value :=
  match models with
  | [] => ret VNone
  | m :: rest =>
      ty <- lift (getitem m "type") ;;
      if eq_str ty type then ret m else next_match rest type
  end.

(** [model.predict(features)]. *)
Definition call_predict (model : value) (features : list (list float))
  : M (list Z) :=
  match model with
  | VObj c => env <- ask ;; lift (predict c (hidden env) features)
  | _ => lift (Raise AttributeError)
  end.

(** [int(prediction[0])]. *)
Definition first_int (prediction : list Z) : result Z :=
  match prediction with
  | [] => Raise IndexError
  | z :: _ => Ok z
  end.

Definition feature_vector (payload : PredictPayload) : list (list float) :=
  [ [ sepal_length payload; sepal_width payload;
      petal_length payload; petal_width payload ] ].

Definition echoed_features (payload : PredictPayload) : value :=
  VDict [ ("sepal_length", VFloat (sepal_length payload));
          ("sepal_width", VFloat (sepal_width payload));
          ("petal_length", VFloat (petal_length payload));
          ("petal_width", VFloat (petal_width payload)) ].

Section Predict.

(** [IrisType] is imported from [app/schemas.py], which is not among the
    sources at hand: the handler is parametrised by it. *)
Variable IrisType : Enum.

Definition _predict (request : Request) (args : string * PredictPayload)
  : M value :=
  let '(type, payload) := args in
  let features := feature_vector payload in
  models <- read_models ;;
  model_wrapper <- next_match models type ;;
  if truthy model_wrapper then
    model <- lift (getitem model_wrapper "model") ;;
    prediction <- call_predict model features ;;
    prediction <- lift (first_int prediction) ;;
    member <- lift (enum_by_value IrisType prediction) ;;
    let predicted_type := enum_name member in
    model_type <- lift (getitem model_wrapper "type") ;;
    ret (VDict
           [ ("message", VStr (HTTPStatus.phrase HTTPStatus.OK));
             ("status-code", VStatus HTTPStatus.OK);
             ("data",
               VDict [ ("model-type", model_type);
                       ("features", echoed_features payload);
                       ("prediction", VInt prediction);
                       ("predicted_type", VStr predicted_type) ]) ])
  else
    ret (VDict
           [ ("message", VStr "Model not found");
             ("status-code", VStatus HTTPStatus.BAD_REQUEST) ]).

End Predict.

(** ** [lifespan] *)

Definition model_paths (entries : list DirEntry) : list DirEntry :=
  filter (fun e => String.eqb (suffix (filename e)) ".pkl") entries.

Fixpoint load_models (paths : list DirEntry) : M unit :=
  match paths with
  | [] => ret tt
  | path :: rest =>
      model_wrapper <- lift (unpickled path) ;;
      append_model model_wrapper ;;;
      load_models rest
  end.

(** The body of [lifespan] up to its [yield]. *)
Definition lifespan_startup : M unit :=
  env <- ask ;;
  entries <- lift (iterdir env) ;;
  load_models (model_paths entries).

(** The body of [lifespan] after its [yield]. *)
Definition lifespan_shutdown : M unit := clear_models.

(** ** The application *)

(** The three routes registered on [app], with their path and body
    parameters. *)
Inductive endpoint : Type :=
| GET_index
| GET_models_list
| POST_predict (type : string) (payload : PredictPayload).

Inductive phase : Type :=
| Created
| Serving
| Stopped
| Failed (e : exn).

Record App : Type := {
  model_wrappers_list : store;
  app_phase : phase
}.

(** The module as imported: [model_wrappers_list = []]. *)
Definition initial_app : App :=
  {| model_wrappers_list := []; app_phase := Created |}.

Inductive event : Type :=
| Startup
| Http (request : Request) (ep : endpoint)
| Shutdown.

Definition is_http (ev : Env * event) : bool :=
  match snd ev with Http _ _ => true | _ => false end.

Section Application.

Variable IrisType : Enum.

Definition handle (request : Request) (ep : endpoint) : M value :=
  match ep with
  | GET_index => construct_response _index request tt
  | GET_models_list => construct_response _get_models_list request tt
  | POST_predict type payload =>
      construct_response (_predict IrisType) request (type, payload)
  end.

(** The ASGI lifespan protocol around the handlers: requests are routed
    only between a start-up that reached [yield] and the shut-down; a
    start-up that raised leaves the application failed. *)
Definition step (app : App) (ev : Env * event)
  : App * option (result value) :=
  let '(env, e) := ev in
  match app_phase app, e with
  | Created, Startup =>
      match lifespan_startup env (model_wrappers_list app) with
      | (Ok _, s) => ({| model_wrappers_list := s; app_phase := Serving |}, None)
      | (Raise x, s) =>
          ({| model_wrappers_list := s; app_phase := Failed x |}, None)
      end
  | Serving, Http request ep =>
      let '(r, s) := handle request ep env (model_wrappers_list app) in
      ({| model_wrappers_list := s; app_phase := Serving |}, Some r)
  | Serving, Shutdown =>
      let '(_, s) := lifespan_shutdown env (model_wrappers_list app) in
      ({| model_wrappers_list := s; app_phase := Stopped |}, None)
  | _, _ => (app, None)
  end.

(** Run a trace of events, collecting the responses sent. *)
Fixpoint run (app : App) (trace : list (Env * event))
  : App * list (result value) :=
  match trace with
  | [] => (app, [])
  | ev :: rest =>
      let '(app', r) := step app ev in
      let '(app'', rs) := run app' rest in
      (app'', match r with Some x => x :: rs | None => rs end)
  end.

End Application.

(** ** Well-formed registries *)

(** A model wrapper as the training scripts pickle it: a [dict] holding a
    [str] under ["type"], a classifier under ["model"], and entries
    ["params"] and ["metrics"]. *)
Definition is_model_wrapper (v : value) : bool :=
  match v with
  | VDict d =>
      match dict_get d "type", dict_get d "model",
            dict_get d "params", dict_get d "metrics" with
      | Some (VStr _), Some (VObj _), Some _, Some _ => true
      | _, _, _, _ => false
      end
  | _ => false
  end.

Definition registry_ok (models : store) : bool := forallb is_model_wrapper models.

(** [m["type"] == type], as a total test. *)
Definition has_type (type : string) (m : value) : bool :=
  match getitem m "type" with
  | Ok ty => eq_str ty type
  | Raise _ => false
  end.

(** The first wrapper of the registry with the requested type. *)
Definition first_of_type (models : store) (type : string) : option value :=
  find (has_type type) models.

Definition type_present (models : store) (type : string) : bool :=
  existsb (has_type type) models.

(** The entry [GET /models] is to show for a wrapper [m]. *)
Definition projection_of (m entry : value) : Prop :=
  exists ty params metrics,
    getitem m "type" = Ok ty /\
    getitem m "params" = Ok params /\
    getitem m "metrics" = Ok metrics /\
    entry = VDict [("type", ty); ("parameters", params); ("accuracy", metrics)].

(** The keys every envelope carries, in the order they are inserted. *)
Definition envelope_keys : list string :=
  ["message"; "method"; "status-code"; "timestamp"; "url"].

(** A classifier whose answer depends on its argument only. *)
Definition deterministic (c : Classifier) : Prop :=
  forall h1 h2 features, predict c h1 features = predict c h2 features.

(** [resp["data"][k]] of a response, when all of it is there. *)
Definition data_field (resp : result value) (k : string) : option value :=
  match resp with
  | Ok envelope =>
      match getitem envelope "data" with
      | Ok data => match getitem data k with Ok v => Some v | Raise _ => None end
      | Raise _ => None
      end
  | Raise _ => None
  end.

(** The function each route decorates. *)
Definition undecorated (IrisType : Enum) (request : Request) (ep : endpoint)
  : M value :=
  match ep with
  | GET_index => _index request tt
  | GET_models_list => _get_models_list request tt
  | POST_predict type payload => _predict IrisType request (type, payload)
  end.

(** A computation that leaves [model_wrappers_list] as it found it, whether
    it returns or raises. *)
Definition read_only {A : Type} (m : M A) : Prop :=
  forall env s, snd (m env s) = s.

(** A computation whose outcome does not depend on the store it starts
    from. *)
Definition store_blind {A : Type} (m : M A) : Prop :=
  forall env s1 s2, fst (m env s1) = fst (m env s2).

(** An item the scan of [next_match] passes over in silence: it has
    something under ["type"], and that is not the requested type. *)
Definition skipped (type : string) (m : value) : bool :=
  match getitem m "type" with
  | Ok ty => negb (eq_str ty type)
  | Raise _ => false
  end.

(** An item the comprehension of [_get_models_list] can project. *)
Definition listable (m : value) : bool :=
  match getitem m "type", getitem m "params", getitem m "metrics" with
  | Ok _, Ok _, Ok _ => true
  | _, _, _ => false
  end.

(** ** Sample data *)

Module Sample.

Definition species : Enum :=
  [("setosa", 0); ("versicolor", 1); ("virginica", 2)].

(** A one-split tree on the petal length. *)
Definition stump : Classifier :=
  {| predict := fun _ features =>
       Ok (map (fun row =>
                  match row with
                  | [_; _; pl; _] => if PrimFloat.ltb pl 2.5%float then 0 else 1
                  | _ => 2
                  end) features) |}.

(** A classifier trained on labels outside [species]. *)
Definition stray : Classifier :=
  {| predict := fun _ features => Ok (map (fun _ => 7) features) |}.

(** A classifier that answers by its own state, not by the features. *)
Definition flaky : Classifier :=
  {| predict := fun h features =>
       Ok (map (fun _ => Z.of_nat h mod 3) features) |}.

(** A classifier that rejects its input. *)
Definition broken : Classifier :=
  {| predict := fun _ _ => Raise (ModelError "bad input") |}.

Definition wrapper (type : string) (c : Classifier) (depth acc : Z) : value :=
  VDict [ ("type", VStr type);
          ("model", VObj c);
          ("params", VDict [("max_depth", VInt depth)]);
          ("metrics", VDict [("accuracy", VInt acc)]) ].

Definition registry : store :=
  [ wrapper "tree" stump 1 95; wrapper "svc" stump 2 90;
    wrapper "tree" stray 3 10 ].

Definition stray_registry : store := [ wrapper "tree" stray 3 10 ].

Definition broken_registry : store := [ wrapper "tree" broken 3 10 ].

Definition flaky_registry : store := [ wrapper "tree" flaky 3 33 ].

Definition flower : PredictPayload :=
  {| sepal_length := 5.5%float; sepal_width := 3.5%float;
     petal_length := 1.5%float; petal_width := 0.25%float |}.

Definition post : Request :=
  {| method := "POST"; url := "http://testserver/models/tree" |}.

Definition get : Request :=
  {| method := "GET"; url := "http://testserver/models" |}.

Definition good_dir : list DirEntry :=
  [ {| filename := "tree.pkl"; unpickled := Ok (wrapper "tree" stump 1 95) |};
    {| filename := "README.md"; unpickled := Raise UnpicklingError |};
    {| filename := "svc.pkl"; unpickled := Ok (wrapper "svc" stump 2 90) |} ].

Definition corrupt_dir : list DirEntry :=
  [ {| filename := "tree.pkl"; unpickled := Ok (wrapper "tree" stump 1 95) |};
    {| filename := "svc.pkl"; unpickled := Raise UnpicklingError |};
    {| filename := "knn.pkl"; unpickled := Ok (wrapper "knn" stump 2 90) |} ].

Definition env (dir : list DirEntry) (clock : string) (h : nat) : Env :=
  {| now_isoformat := clock; hidden := h; iterdir := Ok dir |}.

Definition noon : Env := env good_dir "2021-11-04T12:00:00.000000" 0.

Definition later : Env := env good_dir "2021-11-04T12:00:07.500000" 43.

End Sample.

(** Items that are no model wrappers, and results no route returns. *)
Module Edge.

(** A wrapper pickled without its classifier. *)
Definition no_model : value :=
  VDict [ ("type", VStr "tree");
          ("params", VDict []);
          ("metrics", VDict []) ].

(** A wrapper whose classifier was replaced by [None]. *)
Definition none_model : value :=
  VDict [ ("type", VStr "tree"); ("model", VNone);
          ("params", VDict []); ("metrics", VDict []) ].

(** A wrapper pickled without its metrics. *)
Definition no_metrics : value :=
  VDict [ ("type", VStr "knn");
          ("model", VObj Sample.stump);
          ("params", VDict []) ].

(** A classifier that returns no prediction at all. *)
Definition mute : Classifier := {| predict := fun _ _ => Ok [] |}.

(** A directory whose second model file is corrupt. *)
Definition half_dir : list DirEntry :=
  [ {| filename := "a.pkl"; unpickled := Ok (Sample.wrapper "a" Sample.stump 1 1) |};
    {| filename := "notes.txt"; unpickled := Raise (OSError "not a pickle") |};
    {| filename := "b.pkl"; unpickled := Raise UnpicklingError |};
    {| filename := "c.pkl"; unpickled := Raise (OSError "permission") |} ].

(** A handler that answers with more than the decorator forwards. *)
Definition chatty (request : Request) (_ : unit) : M value :=
  ret (VDict [ ("status-code", VInt 202);
               ("debug", VStr "internal");
               ("message", VStr "Accepted");
               ("data", VNone) ]).

(** A handler that forgets its status code. *)
Definition terse (request : Request) (_ : unit) : M value :=
  ret (VDict [ ("message", VStr "OK") ]).

End Edge.

(** * Properties *)

(** ** Running the sample *)

Example suffix_pkl : suffix "tree.pkl" = ".pkl".
Proof. reflexivity. Qed.

Example suffix_hidden_file : suffix ".pkl" = "".
Proof. reflexivity. Qed.

Example suffix_last_only : suffix "tree.pkl.bak" = ".bak".
Proof. reflexivity. Qed.

Example sample_models_list :
  fst (handle Sample.species Sample.get GET_models_list Sample.noon
         [Sample.wrapper "tree" Sample.stump 1 95])
  = Ok (VDict
          [ ("message", VStr "OK"); ("method", VStr "GET");
            ("status-code", VInt 200);
            ("timestamp", VStr "2021-11-04T12:00:00.000000");
            ("url", VStr "http://testserver/models");
            ("data",
              VList [ VDict [ ("type", VStr "tree");
                              ("parameters", VDict [("max_depth", VInt 1)]);
                              ("accuracy", VDict [("accuracy", VInt 95)]) ] ]) ]).
Proof. vm_compute. reflexivity. Qed.

Example sample_predict :
  data_field
    (fst (handle Sample.species Sample.post
            (POST_predict "tree" Sample.flower) Sample.noon Sample.registry))
    "predicted_type"
  = Some (VStr "setosa").
Proof. vm_compute. reflexivity. Qed.

Example sample_flaky_differs :
  data_field
    (fst (handle Sample.species Sample.post
            (POST_predict "tree" Sample.flower) Sample.noon
            Sample.flaky_registry)) "predicted_type"
  = Some (VStr "setosa") /\
  data_field
    (fst (handle Sample.species Sample.post
            (POST_predict "tree" Sample.flower) Sample.later
            Sample.flaky_registry)) "predicted_type"
  = Some (VStr "versicolor").
Proof. split; vm_compute; reflexivity. Qed.

(** What is not a model wrapper makes the look-up raise, but only when the
    scan reaches it. *)
Example sample_malformed_wrapper :
  fst (next_match [VDict [("name", VStr "tree")]] "tree" Sample.noon [])
  = Raise (KeyError "type") /\
  fst (next_match (Sample.registry ++ [VNone]) "svc" Sample.noon [])
  = Ok (Sample.wrapper "svc" Sample.stump 2 90).
Proof. split; vm_compute; reflexivity. Qed.

Example sample_startup :
  map (has_type "tree")
    (model_wrappers_list
       (fst (step Sample.species initial_app (Sample.noon, Startup))))
  = [true; false].
Proof. vm_compute. reflexivity. Qed.

(** ** The monad *)

Lemma bind_ok {A B : Type} (m : M A) (k : A -> M B) env s a s' :
  m env s = (Ok a, s') -> bind m k env s = k a env s'.
Proof. intros H. unfold bind. rewrite H. reflexivity. Qed.

Lemma bind_raise {A B : Type} (m : M A) (k : A -> M B) env s e s' :
  m env s = (Raise e, s') -> bind m k env s = (Raise e, s').
Proof. intros H. unfold bind. rewrite H. reflexivity. Qed.

Lemma bind_inv {A B : Type} (m : M A) (k : A -> M B) env s b s'' :
  bind m k env s = (Ok b, s'') ->
  exists a s', m env s = (Ok a, s') /\ k a env s' = (Ok b, s'').
Proof.
  unfold bind. destruct (m env s) as [[a | e] s'] eqn:E; intros H.
  - exists a, s'. split; [reflexivity | exact H].
  - discriminate H.
Qed.

Lemma lift_inv {A : Type} (r : result A) env s a s' :
  lift r env s = (Ok a, s') -> r = Ok a /\ s' = s.
Proof. unfold lift. intros H. inversion H. split; reflexivity. Qed.

(** ** The handlers never write the registry *)

Create HintDb ro discriminated.

Lemma read_only_ret {A : Type} (a : A) : read_only (ret a).
Proof. intros env s. reflexivity. Qed.

Lemma read_only_lift {A : Type} (r : result A) : read_only (lift r).
Proof. intros env s. reflexivity. Qed.

Lemma read_only_ask : read_only ask.
Proof. intros env s. reflexivity. Qed.

Lemma read_only_read_models : read_only read_models.
Proof. intros env s. reflexivity. Qed.

Lemma read_only_bind {A B : Type} (m : M A) (k : A -> M B) :
  read_only m -> (forall a, read_only (k a)) -> read_only (bind m k).
Proof.
  intros Hm Hk env s. unfold bind.
  specialize (Hm env s).
  destruct (m env s) as [[a | e] s']; simpl in Hm; subst s'.
  - apply Hk.
  - reflexivity.
Qed.

Lemma read_only_if {A : Type} (b : bool) (m1 m2 : M A) :
  read_only m1 -> read_only m2 -> read_only (if b then m1 else m2).
Proof. destruct b; auto. Qed.

#[local] Hint Resolve read_only_ret read_only_lift read_only_ask
  read_only_read_models read_only_if : ro.
#[local] Hint Extern 2 (read_only (bind _ _)) =>
  apply read_only_bind; [ | intro ] : ro.

Lemma read_only_comprehension {A B : Type} (f : A -> M B) (l : list A) :
  (forall x, read_only (f x)) -> read_only (comprehension f l).
Proof.
  intros Hf. induction l as [| x rest IH]; simpl; auto 10 with ro.
Qed.

Lemma read_only_available_model (m : value) : read_only (available_model m).
Proof. unfold available_model. auto 10 with ro. Qed.

Lemma read_only_next_match (models : list value) (type : string) :
  read_only (next_match models type).
Proof.
  induction models as [| m rest IH]; simpl; auto 10 with ro.
Qed.

Lemma read_only_call_predict (model : value) features :
  read_only (call_predict model features).
Proof. destruct model; simpl; auto with ro. Qed.

#[local] Hint Resolve read_only_comprehension read_only_available_model
  read_only_next_match read_only_call_predict : ro.

Lemma read_only_construct_response {Args : Type}
  (f : Request -> Args -> M value) request args :
  read_only (f request args) -> read_only (construct_response f request args).
Proof. intros Hf. unfold construct_response. auto 12 with ro. Qed.

Lemma read_only_undecorated IrisType request ep :
  read_only (undecorated IrisType request ep).
Proof.
  destruct ep as [| | type payload]; simpl.
  - unfold _index. auto with ro.
  - unfold _get_models_list. auto 10 with ro.
  - unfold _predict. auto 15 with ro.
Qed.

Lemma handle_undecorated IrisType request ep :
  handle IrisType request ep
  = construct_response (undecorated IrisType) request ep.
Proof. destruct ep; reflexivity. Qed.

Lemma read_only_handle IrisType request ep :
  read_only (handle IrisType request ep).
Proof.
  rewrite handle_undecorated.
  apply read_only_construct_response, read_only_undecorated.
Qed.

(** ** Looking a wrapper up *)

Lemma is_model_wrapper_fields (m : value) :
  is_model_wrapper m = true ->
  exists d ty c params metrics,
    m = VDict d /\
    dict_get d "type" = Some (VStr ty) /\
    dict_get d "model" = Some (VObj c) /\
    dict_get d "params" = Some params /\
    dict_get d "metrics" = Some metrics.
Proof.
  destruct m as [| | | | | | d |]; simpl; try discriminate.
  destruct (dict_get d "type") as [[| | | | ty | | |] |] eqn:Hty;
    try discriminate.
  destruct (dict_get d "model") as [[| | | | | | | c] |] eqn:Hmodel;
    try discriminate.
  destruct (dict_get d "params") as [params |] eqn:Hparams; try discriminate.
  destruct (dict_get d "metrics") as [metrics |] eqn:Hmetrics;
    try discriminate.
  intros _. exists d, ty, c, params, metrics. repeat split; assumption || reflexivity.
Qed.

Lemma has_type_wrapper (type : string) (m : value) :
  is_model_wrapper m = true ->
  has_type type m = true ->
  getitem m "type" = Ok (VStr type) /\ truthy m = true.
Proof.
  intros Hm Ht.
  destruct (is_model_wrapper_fields m Hm) as (d & ty & c & p & a & -> & Hty & _).
  unfold has_type in Ht. simpl in *. rewrite Hty in *. simpl in Ht.
  apply String.eqb_eq in Ht. subst ty. split; [reflexivity |].
  destruct d; [discriminate Hty | reflexivity].
Qed.

Lemma next_match_first (models : store) (type : string) env s :
  registry_ok models = true ->
  next_match models type env s
  = (Ok match first_of_type models type with
        | Some m => m
        | None => VNone
        end, s).
Proof.
  unfold registry_ok, first_of_type.
  induction models as [| m rest IH]; simpl; intros Hok.
  - reflexivity.
  - apply andb_prop in Hok. destruct Hok as [Hm Hrest].
    destruct (is_model_wrapper_fields m Hm) as (d & ty & c & p & a & -> & Hty & _).
    unfold bind, lift, has_type. simpl. rewrite Hty. simpl.
    destruct (String.eqb ty type); [reflexivity | apply IH, Hrest].
Qed.

Lemma first_of_type_split (models : store) (type : string) before m after :
  models = (before ++ m :: after)%list ->
  existsb (has_type type) before = false ->
  has_type type m = true ->
  first_of_type models type = Some m.
Proof.
  intros -> Hb Hm. unfold first_of_type.
  induction before as [| x before IH]; simpl in *.
  - rewrite Hm. reflexivity.
  - apply orb_false_elim in Hb. destruct Hb as [Hx Hb].
    rewrite Hx. apply IH, Hb.
Qed.

Lemma first_of_type_absent (models : store) (type : string) :
  type_present models type = false -> first_of_type models type = None.
Proof.
  unfold type_present, first_of_type.
  induction models as [| x rest IH]; simpl; [reflexivity |].
  intros H. apply orb_false_elim in H. destruct H as [Hx Hr].
  rewrite Hx. apply IH, Hr.
Qed.

Lemma first_of_type_wrapper (models : store) (type : string) (m : value) :
  registry_ok models = true ->
  first_of_type models type = Some m ->
  is_model_wrapper m = true /\ has_type type m = true.
Proof.
  unfold registry_ok, first_of_type. intros Hok Hf.
  apply find_some in Hf. destruct Hf as [Hin Ht].
  rewrite forallb_forall in Hok. split; [apply Hok, Hin | exact Ht].
Qed.

(** C7. Looking a wrapper up by type scans [model_wrappers_list] from its
    head: on a registry of model wrappers the scan never raises; it yields
    the first wrapper whose type is the requested one (so the earliest
    loaded of several with that type), whatever follows it; and it yields
    [None] when no wrapper has that type. *)
Theorem lookup_by_type_first_match (models : store) (type : string) env s :
  registry_ok models = true ->
  (exists v, next_match models type env s = (Ok v, s)) /\
  (forall before m after,
      models = (before ++ m :: after)%list ->
      existsb (has_type type) before = false ->
      has_type type m = true ->
      next_match models type env s = (Ok m, s)) /\
  (type_present models type = false ->
   next_match models type env s = (Ok VNone, s)).
Proof.
  intros Hok. rewrite (next_match_first models type env s Hok).
  split; [eexists; reflexivity | split].
  - intros before m after Hsplit Hb Hm.
    rewrite (first_of_type_split models type before m after Hsplit Hb Hm).
    reflexivity.
  - intros Habs. rewrite (first_of_type_absent models type Habs). reflexivity.
Qed.

(** ** What [_predict] returns *)

Lemma predict_not_found IrisType request type payload env models :
  registry_ok models = true ->
  type_present models type = false ->
  _predict IrisType request (type, payload) env models
  = (Ok (VDict [ ("message", VStr "Model not found");
                 ("status-code", VInt 400) ]), models).
Proof.
  intros Hok Habs. unfold _predict.
  unfold bind at 1. unfold read_models. cbv beta iota.
  rewrite (bind_ok _ _ _ _ _ _ (next_match_first models type env models Hok)).
  rewrite (first_of_type_absent models type Habs). reflexivity.
Qed.

Lemma predict_found IrisType request type payload env models m c :
  registry_ok models = true ->
  first_of_type models type = Some m ->
  getitem m "model" = Ok (VObj c) ->
  _predict IrisType request (type, payload) env models
  = match predict c (hidden env) (feature_vector payload) with
    | Raise e => (Raise e, models)
    | Ok [] => (Raise IndexError, models)
    | Ok (z :: _) =>
        match enum_by_value IrisType z with
        | Raise e => (Raise e, models)
        | Ok member =>
            (Ok (VDict
                   [ ("message", VStr "OK");
                     ("status-code", VInt 200);
                     ("data",
                       VDict [ ("model-type", VStr type);
                               ("features", echoed_features payload);
                               ("prediction", VInt z);
                               ("predicted_type", VStr (enum_name member)) ]) ]),
             models)
        end
    end.
Proof.
  intros Hok Hfirst Hmodel.
  destruct (first_of_type_wrapper models type m Hok Hfirst) as [Hm Ht].
  destruct (has_type_wrapper type m Hm Ht) as [Hty Htruthy].
  unfold _predict.
  unfold bind at 1. unfold read_models. cbv beta iota.
  rewrite (bind_ok _ _ _ _ _ _ (next_match_first models type env models Hok)).
  rewrite Hfirst, Htruthy.
  unfold call_predict, bind, lift, ask, ret. rewrite Hmodel. cbv beta iota.
  destruct (predict c (hidden env) (feature_vector payload))
    as [[| z rest] | e].
  - reflexivity.
  - simpl. destruct (enum_by_value IrisType z) as [member | e].
    + rewrite Hty. reflexivity.
    + reflexivity.
  - reflexivity.
Qed.

(** ** What [construct_response] makes of it *)

Lemma construct_response_ok {Args : Type} (f : Request -> Args -> M value)
  request args env s r s' msg sc :
  f request args env s = (Ok (VDict r), s') ->
  dict_get r "message" = Some msg ->
  dict_get r "status-code" = Some sc ->
  construct_response f request args env s
  = (Ok (VDict
           ([ ("message", msg);
              ("method", VStr (method request));
              ("status-code", sc);
              ("timestamp", VStr (now_isoformat env));
              ("url", VStr (url request)) ]
            ++ match dict_get r "data" with
               | Some data => [("data", data)]
               | None => []
               end)%list), s').
Proof.
  intros Hf Hmsg Hsc. unfold construct_response.
  rewrite (bind_ok _ _ _ _ _ _ Hf).
  unfold bind, lift, ask, ret, getitem, contains, dict_contains.
  rewrite Hmsg, Hsc.
  destruct (dict_get r "data") as [data |]; reflexivity.
Qed.

Lemma construct_response_raise {Args : Type} (f : Request -> Args -> M value)
  request args env s e s' :
  f request args env s = (Raise e, s') ->
  construct_response f request args env s = (Raise e, s').
Proof.
  intros Hf. unfold construct_response. apply bind_raise, Hf.
Qed.

Lemma enum_by_value_member (E : Enum) (z : Z) (member : string * Z) :
  enum_by_value E z = Ok member ->
  In member E /\ snd member = z /\ In (enum_name member) (enum_names E).
Proof.
  unfold enum_by_value.
  destruct (find (fun m => snd m =? z) E) as [m |] eqn:Hfind; [| discriminate].
  intros H. inversion H. subst m.
  apply find_some in Hfind. destruct Hfind as [Hin Hz].
  apply Z.eqb_eq in Hz.
  repeat split; [exact Hin | exact Hz |].
  unfold enum_names, enum_name. apply in_map, Hin.
Qed.

Lemma enum_by_value_stranger (E : Enum) (z : Z) :
  ~ In z (map snd E) -> enum_by_value E z = Raise ValueError.
Proof.
  intros Hout. unfold enum_by_value.
  destruct (find (fun m => snd m =? z) E) as [m |] eqn:Hfind; [| reflexivity].
  apply find_some in Hfind. destruct Hfind as [Hin Hz].
  apply Z.eqb_eq in Hz. exfalso. apply Hout. rewrite <- Hz.
  apply in_map, Hin.
Qed.

(** ** The claims *)

(** C2. On a registry of model wrappers none of which has the requested
    type, [POST /models/{type}] does not raise: it returns the envelope
    with message "Model not found" and status code 400 and without a
    ["data"] key, and leaves the registry as it was. *)
Theorem predict_unknown_type_is_400
  IrisType request type payload env models :
  registry_ok models = true ->
  type_present models type = false ->
  exists envelope,
    handle IrisType request (POST_predict type payload) env models
    = (Ok envelope, models) /\
    envelope = VDict [ ("message", VStr "Model not found");
                       ("method", VStr (method request));
                       ("status-code", VInt 400);
                       ("timestamp", VStr (now_isoformat env));
                       ("url", VStr (url request)) ] /\
    contains envelope "data" = Ok false.
Proof.
  intros Hok Habs. eexists. split; [| split; reflexivity].
  simpl handle.
  rewrite (construct_response_ok (_predict IrisType) request (type, payload)
             env models _ models _ _
             (predict_not_found IrisType request type payload env models
                Hok Habs) eq_refl eq_refl).
  reflexivity.
Qed.

(** C1, as amended.  On a registry of model wrappers, when the first
    wrapper of the requested type holds a classifier whose [predict]
    returns for the payload's feature vector an array starting with a
    value of [IrisType], [POST /models/{type}] returns the envelope with
    status code 200 whose data holds the model type, the echoed features,
    that integer as prediction and, as predicted type, the name of the
    member of [IrisType] with that value. *)
Theorem predict_known_type_is_200
  IrisType request type payload env models m c z rest member :
  registry_ok models = true ->
  first_of_type models type = Some m ->
  getitem m "model" = Ok (VObj c) ->
  predict c (hidden env) (feature_vector payload) = Ok (z :: rest) ->
  enum_by_value IrisType z = Ok member ->
  handle IrisType request (POST_predict type payload) env models
  = (Ok (VDict
           [ ("message", VStr "OK");
             ("method", VStr (method request));
             ("status-code", VInt 200);
             ("timestamp", VStr (now_isoformat env));
             ("url", VStr (url request));
             ("data",
               VDict [ ("model-type", VStr type);
                       ("features", echoed_features payload);
                       ("prediction", VInt z);
                       ("predicted_type", VStr (enum_name member)) ]) ]),
     models)
  /\ In (enum_name member) (enum_names IrisType).
Proof.
  intros Hok Hfirst Hmodel Hpred Henum. split.
  - simpl handle.
    pose proof (predict_found IrisType request type payload env models m c
                  Hok Hfirst Hmodel) as Hraw.
    rewrite Hpred, Henum in Hraw.
    rewrite (construct_response_ok (_predict IrisType) request
               (type, payload) env models _ models _ _ Hraw eq_refl eq_refl).
    reflexivity.
  - apply (enum_by_value_member IrisType z member Henum).
Qed.

(** C10. When the classifier of the matched wrapper raises in [predict],
    or returns a class index that is no value of [IrisType], the predict
    endpoint returns no envelope: the exception of the classifier, or the
    [ValueError] of the enumeration, leaves the handler. *)
Theorem predict_failure_is_unhandled
  IrisType request type payload env models m c :
  registry_ok models = true ->
  first_of_type models type = Some m ->
  getitem m "model" = Ok (VObj c) ->
  (forall e,
      predict c (hidden env) (feature_vector payload) = Raise e ->
      handle IrisType request (POST_predict type payload) env models
      = (Raise e, models)) /\
  (forall z rest,
      predict c (hidden env) (feature_vector payload) = Ok (z :: rest) ->
      ~ In z (map snd IrisType) ->
      handle IrisType request (POST_predict type payload) env models
      = (Raise ValueError, models)).
Proof.
  intros Hok Hfirst Hmodel.
  pose proof (predict_found IrisType request type payload env models m c
                Hok Hfirst Hmodel) as Hraw.
  split.
  - intros e Hpred. rewrite Hpred in Hraw.
    simpl handle. apply construct_response_raise, Hraw.
  - intros z rest Hpred Hout. rewrite Hpred in Hraw.
    rewrite (enum_by_value_stranger IrisType z Hout) in Hraw.
    simpl handle. apply construct_response_raise, Hraw.
Qed.

(** ** What [_get_models_list] returns *)

Lemma available_models_ok (models : store) env s :
  registry_ok models = true ->
  exists entries,
    comprehension available_model models env s = (Ok entries, s) /\
    Forall2 projection_of models entries /\
    Forall (fun entry => contains entry "model" = Ok false) entries.
Proof.
  unfold registry_ok.
  induction models as [| m rest IH]; simpl; intros Hok.
  - exists []. repeat split; constructor.
  - apply andb_prop in Hok. destruct Hok as [Hm Hrest].
    destruct (IH Hrest) as (entries & Hrun & Hproj & Hno).
    destruct (is_model_wrapper_fields m Hm)
      as (d & ty & c & params & metrics & -> & Hty & _ & Hparams & Hmetrics).
    exists (VDict [("type", VStr ty); ("parameters", params);
                   ("accuracy", metrics)] :: entries).
    split; [| split].
    + assert (Hitem : available_model (VDict d) env s
                      = (Ok (VDict [("type", VStr ty); ("parameters", params);
                                    ("accuracy", metrics)]), s)).
      { unfold available_model, bind, lift, ret, getitem.
        rewrite Hty, Hparams, Hmetrics. reflexivity. }
      rewrite (bind_ok _ _ _ _ _ _ Hitem), (bind_ok _ _ _ _ _ _ Hrun).
      reflexivity.
    + constructor; [| exact Hproj].
      exists (VStr ty), params, metrics. unfold getitem.
      rewrite Hty, Hparams, Hmetrics. repeat split; reflexivity.
    + constructor; [reflexivity | exact Hno].
Qed.

(** C3. On every registry of model wrappers, the empty one included,
    [GET /models] returns an envelope with status code 200 whose data is a
    list with one entry per wrapper, in the order of the registry; the
    entry of a wrapper has exactly the keys type, parameters and accuracy,
    holding what the wrapper has under type, params and metrics, and so
    has no key for the model object. *)
Theorem models_list_projects_registry IrisType request env models :
  registry_ok models = true ->
  exists entries,
    handle IrisType request GET_models_list env models
    = (Ok (VDict
             [ ("message", VStr "OK");
               ("method", VStr (method request));
               ("status-code", VInt 200);
               ("timestamp", VStr (now_isoformat env));
               ("url", VStr (url request));
               ("data", VList entries) ]), models) /\
    Forall2 projection_of models entries /\
    Forall (fun entry => contains entry "model" = Ok false) entries /\
    List.length entries = List.length models.
Proof.
  intros Hok.
  destruct (available_models_ok models env models Hok)
    as (entries & Hrun & Hproj & Hno).
  exists entries. repeat split; try assumption.
  - simpl handle.
    assert (Hraw : _get_models_list request tt env models
                   = (Ok (VDict [ ("message", VStr "OK");
                                  ("status-code", VInt 200);
                                  ("data", VList entries) ]), models)).
    { unfold _get_models_list. unfold bind at 1. unfold read_models.
      cbv beta iota. rewrite (bind_ok _ _ _ _ _ _ Hrun). reflexivity. }
    rewrite (construct_response_ok _get_models_list request tt env models
               _ models _ _ Hraw eq_refl eq_refl).
    reflexivity.
  - symmetry. apply (Forall2_length Hproj).
Qed.

(** ** The shape of what the handlers return, on any store *)

Ltac invert_bind H :=
  let a := fresh "a" in
  let s := fresh "s" in
  let Ha := fresh "Hstep" in
  apply bind_inv in H; destruct H as (a & s & Ha & H).

Lemma predict_results_shape IrisType request type payload env s results s' :
  _predict IrisType request (type, payload) env s = (Ok results, s') ->
  results = VDict [ ("message", VStr "Model not found");
                    ("status-code", VInt 400) ]
  \/ exists model_type z name,
      results = VDict
                  [ ("message", VStr "OK");
                    ("status-code", VInt 200);
                    ("data",
                      VDict [ ("model-type", model_type);
                              ("features", echoed_features payload);
                              ("prediction", VInt z);
                              ("predicted_type", VStr name) ]) ].
Proof.
  unfold _predict. intros H.
  invert_bind H. invert_bind H.
  destruct (truthy a0).
  - do 5 invert_bind H.
    unfold ret in H. inversion H. subst.
    right. eexists _, _, _. reflexivity.
  - unfold ret in H. inversion H. left. reflexivity.
Qed.

Lemma undecorated_results_shape IrisType request ep env s results s' :
  undecorated IrisType request ep env s = (Ok results, s') ->
  exists r msg sc,
    results = VDict r /\
    dict_get r "message" = Some msg /\
    dict_get r "status-code" = Some sc.
Proof.
  destruct ep as [| | type payload]; unfold undecorated; intros H.
  - unfold _index, ret in H. inversion H.
    eexists _, _, _. repeat split; reflexivity.
  - unfold _get_models_list in H. do 2 invert_bind H.
    unfold ret in H. inversion H.
    eexists _, _, _. repeat split; reflexivity.
  - destruct (predict_results_shape IrisType request type payload env s
                results s' H)
      as [-> | (mt & z & name & ->)];
      eexists _, _, _; repeat split; reflexivity.
Qed.

(** C4. Whatever the endpoint and the request, when the decorated function
    returns, the envelope returned has the keys message, method,
    status-code, timestamp and url, followed by data exactly when the
    function's own result has a data key; under method it holds the
    method of the request and under url its URL. *)
Theorem envelope_has_fixed_fields IrisType request ep env s results s' :
  undecorated IrisType request ep env s = (Ok results, s') ->
  exists d has_data,
    handle IrisType request ep env s = (Ok (VDict d), s') /\
    contains results "data" = Ok has_data /\
    dict_keys d
    = (envelope_keys ++ if has_data : bool then ["data"] else [])%list /\
    dict_get d "method" = Some (VStr (method request)) /\
    dict_get d "url" = Some (VStr (url request)).
Proof.
  intros Hraw.
  destruct (undecorated_results_shape _ _ _ _ _ _ _ Hraw)
    as (r & msg & sc & -> & Hmsg & Hsc).
  rewrite handle_undecorated.
  rewrite (construct_response_ok (undecorated IrisType) request ep env s
             r s' msg sc Hraw Hmsg Hsc).
  eexists _, (dict_contains r "data"). split; [reflexivity |].
  split; [reflexivity |].
  unfold dict_contains.
  destruct (dict_get r "data") as [data |]; repeat split; reflexivity.
Qed.

(** C9. In every response of the predict endpoint with status code 200,
    the data has under features a dict with exactly the four keys
    sepal_length, sepal_width, petal_length and petal_width, each
    holding the float the payload has in that field. *)
Theorem predict_echoes_features
  IrisType request type payload env s envelope s' :
  handle IrisType request (POST_predict type payload) env s
  = (Ok envelope, s') ->
  getitem envelope "status-code" = Ok (VInt 200) ->
  exists data,
    getitem envelope "data" = Ok data /\
    getitem data "features"
    = Ok (VDict [ ("sepal_length", VFloat (sepal_length payload));
                  ("sepal_width", VFloat (sepal_width payload));
                  ("petal_length", VFloat (petal_length payload));
                  ("petal_width", VFloat (petal_width payload)) ]).
Proof.
  intros Hrun Hstatus. simpl handle in Hrun.
  pose proof Hrun as Hfull.
  unfold construct_response in Hrun. apply bind_inv in Hrun.
  destruct Hrun as (results & s1 & Hraw & _).
  destruct (predict_results_shape _ _ _ _ _ _ _ _ Hraw)
    as [-> | (mt & z & name & ->)];
    rewrite (construct_response_ok (_predict IrisType) request
               (type, payload) env s _ s1 _ _ Hraw eq_refl eq_refl) in Hfull;
    inversion Hfull; subst envelope.
  - discriminate Hstatus.
  - eexists. split; reflexivity.
Qed.

(** ** Repeating a prediction *)

Lemma next_match_env (models : list value) (type : string) env1 env2 s :
  next_match models type env1 s = next_match models type env2 s.
Proof.
  induction models as [| m rest IH]; simpl; [reflexivity |].
  unfold bind, lift. destruct (getitem m "type") as [ty | e]; [| reflexivity].
  destruct (eq_str ty type); [reflexivity | apply IH].
Qed.

Lemma next_match_in (models : list value) (type : string) env s m s' :
  next_match models type env s = (Ok m, s') ->
  s' = s /\ (m = VNone \/ In m models).
Proof.
  induction models as [| x rest IH]; simpl.
  - unfold ret. intros H. inversion H. split; [reflexivity | left; reflexivity].
  - unfold bind, lift. destruct (getitem x "type") as [ty | e]; [| discriminate].
    destruct (eq_str ty type).
    + unfold ret. intros H. inversion H. subst.
      split; [reflexivity | right; left; reflexivity].
    + intros H. destruct (IH H) as [Hs [Hnone | Hin]].
      * split; [exact Hs | left; exact Hnone].
      * split; [exact Hs | right; right; exact Hin].
Qed.

Lemma bind_congr {A B : Type} (m1 m2 : M A) (k1 k2 : A -> M B) env1 env2 s :
  m1 env1 s = m2 env2 s ->
  (forall a s', m2 env2 s = (Ok a, s') -> k1 a env1 s' = k2 a env2 s') ->
  bind m1 k1 env1 s = bind m2 k2 env2 s.
Proof.
  intros Hm Hk. unfold bind. rewrite Hm.
  destruct (m2 env2 s) as [[a | e] s']; [apply Hk |]; reflexivity.
Qed.

Lemma predict_env IrisType req1 req2 type payload env1 env2 models :
  (forall m c,
      In m models -> getitem m "model" = Ok (VObj c) -> deterministic c) ->
  _predict IrisType req1 (type, payload) env1 models
  = _predict IrisType req2 (type, payload) env2 models.
Proof.
  intros Hdet. unfold _predict.
  apply bind_congr; [reflexivity |].
  intros ms s0 H. inversion H. subst ms s0. clear H.
  apply bind_congr; [apply next_match_env |].
  intros m s1 Hnext.
  destruct (next_match_in models type env2 models m s1 Hnext) as [-> Hm].
  destruct (truthy m) eqn:Htruthy; [| reflexivity].
  destruct Hm as [-> | Hin]; [discriminate Htruthy |].
  apply bind_congr; [reflexivity |].
  intros model s2 Hmodel. apply lift_inv in Hmodel.
  destruct Hmodel as [Hmodel ->].
  apply bind_congr.
  - destruct model; try reflexivity.
    unfold call_predict, bind, ask, lift.
    rewrite (Hdet m c Hin Hmodel (hidden env1) (hidden env2)). reflexivity.
  - intros prediction s3 _. reflexivity.
Qed.

Lemma data_field_construct_response {Args : Type}
  (f1 f2 : Request -> Args -> M value) req1 req2 args1 args2 env1 env2 s1 s2 k :
  fst (f1 req1 args1 env1 s1) = fst (f2 req2 args2 env2 s2) ->
  data_field (fst (construct_response f1 req1 args1 env1 s1)) k
  = data_field (fst (construct_response f2 req2 args2 env2 s2)) k.
Proof.
  intros H. unfold construct_response.
  destruct (f1 req1 args1 env1 s1) as [[r1 | e1] t1] eqn:H1;
    destruct (f2 req2 args2 env2 s2) as [[r2 | e2] t2] eqn:H2;
    simpl in H; inversion H; subst;
    [ rewrite (bind_ok _ _ _ _ _ _ H1), (bind_ok _ _ _ _ _ _ H2)
    | rewrite (bind_raise _ _ _ _ _ _ H1), (bind_raise _ _ _ _ _ _ H2);
      reflexivity ].
  unfold bind, lift, ask, ret.
  destruct (getitem r2 "message") as [msg | e]; [| reflexivity].
  destruct (getitem r2 "status-code") as [sc | e]; [| reflexivity].
  destruct (contains r2 "data") as [[|] | e]; [| reflexivity | reflexivity].
  destruct (getitem r2 "data") as [data | e]; reflexivity.
Qed.

(** C8. Two predict requests for the same type with the same payload, on
    the same registry, of which every classifier is deterministic, carry
    the same prediction and the same predicted type in their data, whatever
    the clock and the classifiers' hidden state at either request; what the
    undecorated handler returns or raises is the same altogether. *)
Theorem predict_is_repeatable
  IrisType req1 req2 type payload env1 env2 models :
  (forall m c,
      In m models -> getitem m "model" = Ok (VObj c) -> deterministic c) ->
  let first := handle IrisType req1 (POST_predict type payload) env1 models in
  let second := handle IrisType req2 (POST_predict type payload) env2 models in
  data_field (fst first) "prediction" = data_field (fst second) "prediction" /\
  data_field (fst first) "predicted_type"
  = data_field (fst second) "predicted_type" /\
  _predict IrisType req1 (type, payload) env1 models
  = _predict IrisType req2 (type, payload) env2 models.
Proof.
  intros Hdet first second. subst first second.
  pose proof (predict_env IrisType req1 req2 type payload env1 env2 models
                Hdet) as Hraw.
  simpl handle. repeat split.
  - apply data_field_construct_response. rewrite Hraw. reflexivity.
  - apply data_field_construct_response. rewrite Hraw. reflexivity.
  - exact Hraw.
Qed.

(** ** The life cycle *)

Lemma load_models_result (paths : list DirEntry) env s :
  match load_models paths env s with
  | (Ok _, s') =>
      exists loaded,
        Forall2 (fun path v => unpickled path = Ok v) paths loaded /\
        s' = (s ++ loaded)%list
  | (Raise e, _) => exists path, In path paths /\ unpickled path = Raise e
  end.
Proof.
  revert s. induction paths as [| path rest IH]; intros s; simpl.
  - exists []. split; [constructor | symmetry; apply app_nil_r].
  - unfold bind at 1. unfold lift.
    destruct (unpickled path) as [v | e] eqn:Hload.
    + unfold bind, append_model.
      specialize (IH (s ++ [v])%list).
      destruct (load_models rest env (s ++ [v])%list) as [[u | e] s'].
      * destruct IH as (loaded & Hall & ->).
        exists (v :: loaded). split; [constructor; assumption |].
        rewrite <- app_assoc. reflexivity.
      * destruct IH as (p & Hin & Hp). exists p.
        split; [right; exact Hin | exact Hp].
    + exists path. split; [left; reflexivity | exact Hload].
Qed.

Lemma model_paths_in (entries : list DirEntry) (e : DirEntry) :
  In e (model_paths entries) <-> In e entries /\ suffix (filename e) = ".pkl".
Proof.
  unfold model_paths. rewrite filter_In, String.eqb_eq. reflexivity.
Qed.

Lemma lifespan_startup_eq env s :
  lifespan_startup env s
  = match iterdir env with
    | Ok entries => load_models (model_paths entries) env s
    | Raise e => (Raise e, s)
    end.
Proof.
  unfold lifespan_startup, bind, ask, lift.
  destruct (iterdir env); reflexivity.
Qed.

Lemma step_startup IrisType env :
  step IrisType initial_app (env, Startup)
  = match lifespan_startup env [] with
    | (Ok _, s) => ({| model_wrappers_list := s; app_phase := Serving |}, None)
    | (Raise x, s) =>
        ({| model_wrappers_list := s; app_phase := Failed x |}, None)
    end.
Proof. reflexivity. Qed.

Lemma run_cons IrisType (app : App) ev (rest : list (Env * event)) :
  run IrisType app (ev :: rest)
  = let '(app', r) := step IrisType app ev in
    let '(app'', rs) := run IrisType app' rest in
    (app'', match r with Some x => x :: rs | None => rs end).
Proof. reflexivity. Qed.

Lemma run_outside_serving IrisType (app : App) (trace : list (Env * event)) :
  (exists e, app_phase app = Failed e) \/ app_phase app = Stopped ->
  run IrisType app trace = (app, []).
Proof.
  intros Hphase. induction trace as [| [env ev] rest IH].
  - reflexivity.
  - assert (Hstep : step IrisType app (env, ev) = (app, None)).
    { unfold step. destruct Hphase as [[e ->] | ->]; reflexivity. }
    rewrite run_cons, Hstep, IH. reflexivity.
Qed.

Lemma run_serving IrisType (app : App) (trace : list (Env * event)) :
  app_phase app = Serving ->
  forallb is_http trace = true ->
  fst (run IrisType app trace)
  = {| model_wrappers_list := model_wrappers_list app; app_phase := Serving |}.
Proof.
  revert app. induction trace as [| [env ev] rest IH]; intros app Hphase Hhttp.
  - simpl. destruct app as [ms ph]. simpl in Hphase. subst ph. reflexivity.
  - simpl in Hhttp. apply andb_prop in Hhttp. destruct Hhttp as [Hev Hrest].
    destruct ev as [| request ep |]; try discriminate Hev.
    rewrite run_cons. unfold step. rewrite Hphase.
    pose proof (read_only_handle IrisType request ep env
                  (model_wrappers_list app)) as Hro.
    destruct (handle IrisType request ep env (model_wrappers_list app))
      as [r s] eqn:Hrun.
    simpl in Hro. subst s.
    specialize (IH {| model_wrappers_list := model_wrappers_list app;
                      app_phase := Serving |} eq_refl Hrest).
    destruct (run IrisType
                {| model_wrappers_list := model_wrappers_list app;
                   app_phase := Serving |} rest) as [app'' rs].
    simpl in IH. subst app''. reflexivity.
Qed.

(** C5. The registry is filled once, by the start-up: when the start-up of
    the freshly imported application reaches its [yield], the registry
    holds what the [.pkl] entries of the directory unpickle to, in
    directory order.  From then on it is read only: after any sequence of
    requests to the three endpoints, whether they return or raise, the
    registry is that same list and the application still serves.  The
    shut-down that follows empties it. *)
Theorem registry_filled_once_then_read_only IrisType env0 env1 :
  let started := fst (step IrisType initial_app (env0, Startup)) in
  app_phase started = Serving ->
  (exists entries,
      iterdir env0 = Ok entries /\
      Forall2 (fun path v => unpickled path = Ok v)
        (model_paths entries) (model_wrappers_list started)) /\
  (forall trace,
      forallb is_http trace = true ->
      let served := fst (run IrisType started trace) in
      model_wrappers_list served = model_wrappers_list started /\
      app_phase served = Serving /\
      model_wrappers_list (fst (step IrisType served (env1, Shutdown))) = []).
Proof.
  intros started Hserving. split.
  - subst started. rewrite step_startup, lifespan_startup_eq in *.
    destruct (iterdir env0) as [entries | e]; [| discriminate Hserving].
    exists entries. split; [reflexivity |].
    pose proof (load_models_result (model_paths entries) env0 []) as Hload.
    destruct (load_models (model_paths entries) env0 []) as [[u | e] s'].
    + destruct Hload as (loaded & Hall & ->). exact Hall.
    + discriminate Hserving.
  - intros trace Hhttp served.
    pose proof (run_serving IrisType started trace Hserving Hhttp) as Hrun.
    fold served in Hrun. rewrite Hrun. repeat split.
Qed.

(** C6. When some entry of the models directory with suffix [.pkl] cannot
    be unpickled, the start-up raises before its [yield], with the error of
    a [.pkl] entry; the application is then failed, not serving, and sends
    no response to whatever comes in afterwards. *)
Theorem corrupt_bundle_aborts_startup IrisType env entries bad x :
  iterdir env = Ok entries ->
  In bad entries ->
  suffix (filename bad) = ".pkl" ->
  unpickled bad = Raise x ->
  exists e culprit,
    fst (lifespan_startup env []) = Raise e /\
    In culprit entries /\
    suffix (filename culprit) = ".pkl" /\
    unpickled culprit = Raise e /\
    let aborted := fst (step IrisType initial_app (env, Startup)) in
    app_phase aborted = Failed e /\
    forall trace, run IrisType aborted trace = (aborted, []).
Proof.
  intros Hdir Hin Hsuffix Hbad.
  assert (Hpath : In bad (model_paths entries)).
  { apply model_paths_in. split; assumption. }
  assert (Hstart : lifespan_startup env []
                   = load_models (model_paths entries) env []).
  { rewrite lifespan_startup_eq, Hdir. reflexivity. }
  pose proof (load_models_result (model_paths entries) env []) as Hload.
  destruct (load_models (model_paths entries) env []) as [[u | e] s'] eqn:Hrun.
  - destruct Hload as (loaded & Hall & _). exfalso.
    clear Hrun Hstart. induction Hall as [| p v ps vs Hp Hall IH].
    + destruct Hpath.
    + destruct Hpath as [-> | Hpath]; [congruence | exact (IH Hpath)].
  - destruct Hload as (culprit & Hc & Hraise).
    apply model_paths_in in Hc. destruct Hc as [Hc Hs].
    exists e, culprit. rewrite Hstart.
    repeat split; try assumption.
    + rewrite step_startup, Hstart. reflexivity.
    + intros trace. apply run_outside_serving. left. exists e.
      rewrite step_startup, Hstart. reflexivity.
Qed.

(** * The claims at the sample registry *)

(** The claim C1 as stated fails: "tree" is the type of a wrapper of the
    registry, the payload is valid, and the endpoint raises [ValueError]
    instead of returning an envelope, because the classifier answers 7,
    which is no value of the enumeration. *)
Lemma predict_known_type_may_raise :
  registry_ok Sample.stray_registry = true /\
  type_present Sample.stray_registry "tree" = true /\
  handle Sample.species Sample.post (POST_predict "tree" Sample.flower)
    Sample.noon Sample.stray_registry
  = (Raise ValueError, Sample.stray_registry).
Proof. repeat split; vm_compute; reflexivity. Qed.

Lemma predict_known_type_is_200_witness :
  registry_ok Sample.registry = true /\
  first_of_type Sample.registry "tree"
  = Some (Sample.wrapper "tree" Sample.stump 1 95) /\
  getitem (Sample.wrapper "tree" Sample.stump 1 95) "model"
  = Ok (VObj Sample.stump) /\
  predict Sample.stump (hidden Sample.noon) (feature_vector Sample.flower)
  = Ok [0] /\
  enum_by_value Sample.species 0 = Ok ("setosa", 0) /\
  handle Sample.species Sample.post (POST_predict "tree" Sample.flower)
    Sample.noon Sample.registry
  = (Ok (VDict
           [ ("message", VStr "OK");
             ("method", VStr "POST");
             ("status-code", VInt 200);
             ("timestamp", VStr "2021-11-04T12:00:00.000000");
             ("url", VStr "http://testserver/models/tree");
             ("data",
               VDict [ ("model-type", VStr "tree");
                       ("features", echoed_features Sample.flower);
                       ("prediction", VInt 0);
                       ("predicted_type", VStr "setosa") ]) ]),
     Sample.registry) /\
  In "setosa" (enum_names Sample.species).
Proof.
  do 5 (split; [vm_compute; reflexivity |]).
  apply (predict_known_type_is_200 Sample.species Sample.post "tree"
           Sample.flower Sample.noon Sample.registry
           (Sample.wrapper "tree" Sample.stump 1 95) Sample.stump 0 []
           ("setosa", 0));
    vm_compute; reflexivity.
Defined.

Lemma predict_unknown_type_is_400_witness :
  registry_ok Sample.registry = true /\
  type_present Sample.registry "knn" = false /\
  exists envelope,
    handle Sample.species Sample.post (POST_predict "knn" Sample.flower)
      Sample.noon Sample.registry
    = (Ok envelope, Sample.registry) /\
    envelope = VDict [ ("message", VStr "Model not found");
                       ("method", VStr "POST");
                       ("status-code", VInt 400);
                       ("timestamp", VStr "2021-11-04T12:00:00.000000");
                       ("url", VStr "http://testserver/models/tree") ] /\
    contains envelope "data" = Ok false.
Proof.
  do 2 (split; [vm_compute; reflexivity |]).
  apply (predict_unknown_type_is_400 Sample.species Sample.post "knn"
           Sample.flower Sample.noon Sample.registry);
    vm_compute; reflexivity.
Defined.

Lemma models_list_projects_registry_witness :
  registry_ok Sample.registry = true /\
  exists entries,
    handle Sample.species Sample.get GET_models_list Sample.noon
      Sample.registry
    = (Ok (VDict
             [ ("message", VStr "OK");
               ("method", VStr "GET");
               ("status-code", VInt 200);
               ("timestamp", VStr "2021-11-04T12:00:00.000000");
               ("url", VStr "http://testserver/models");
               ("data", VList entries) ]), Sample.registry) /\
    Forall2 projection_of Sample.registry entries /\
    Forall (fun entry => contains entry "model" = Ok false) entries /\
    List.length entries = 3%nat.
Proof.
  split; [vm_compute; reflexivity |].
  apply (models_list_projects_registry Sample.species Sample.get Sample.noon
           Sample.registry).
  vm_compute; reflexivity.
Defined.

Lemma envelope_has_fixed_fields_witness :
  undecorated Sample.species Sample.post (POST_predict "knn" Sample.flower)
    Sample.noon Sample.registry
  = (Ok (VDict [ ("message", VStr "Model not found");
                 ("status-code", VInt 400) ]), Sample.registry) /\
  exists d has_data,
    handle Sample.species Sample.post (POST_predict "knn" Sample.flower)
      Sample.noon Sample.registry
    = (Ok (VDict d), Sample.registry) /\
    contains (VDict [ ("message", VStr "Model not found");
                      ("status-code", VInt 400) ]) "data"
    = Ok has_data /\
    dict_keys d
    = (envelope_keys ++ if has_data : bool then ["data"] else [])%list /\
    dict_get d "method" = Some (VStr "POST") /\
    dict_get d "url" = Some (VStr "http://testserver/models/tree").
Proof.
  split; [vm_compute; reflexivity |].
  apply (envelope_has_fixed_fields Sample.species Sample.post
           (POST_predict "knn" Sample.flower) Sample.noon Sample.registry).
  vm_compute; reflexivity.
Defined.

Lemma registry_filled_once_then_read_only_witness :
  app_phase (fst (step Sample.species initial_app (Sample.noon, Startup)))
  = Serving /\
  let started := fst (step Sample.species initial_app (Sample.noon, Startup)) in
  (exists entries,
      iterdir Sample.noon = Ok entries /\
      Forall2 (fun path v => unpickled path = Ok v)
        (model_paths entries) (model_wrappers_list started)) /\
  (forall trace,
      forallb is_http trace = true ->
      let served := fst (run Sample.species started trace) in
      model_wrappers_list served = model_wrappers_list started /\
      app_phase served = Serving /\
      model_wrappers_list
        (fst (step Sample.species served (Sample.later, Shutdown))) = []).
Proof.
  split; [vm_compute; reflexivity |].
  apply (registry_filled_once_then_read_only Sample.species Sample.noon
           Sample.later).
  vm_compute; reflexivity.
Defined.

Lemma corrupt_bundle_aborts_startup_witness :
  let env := Sample.env Sample.corrupt_dir "2021-11-04T11:59:00.000000" 0 in
  let bad := {| filename := "svc.pkl"; unpickled := Raise UnpicklingError |} in
  iterdir env = Ok Sample.corrupt_dir /\
  In bad Sample.corrupt_dir /\
  suffix (filename bad) = ".pkl" /\
  unpickled bad = Raise UnpicklingError /\
  exists e culprit,
    fst (lifespan_startup env []) = Raise e /\
    In culprit Sample.corrupt_dir /\
    suffix (filename culprit) = ".pkl" /\
    unpickled culprit = Raise e /\
    let aborted := fst (step Sample.species initial_app (env, Startup)) in
    app_phase aborted = Failed e /\
    forall trace, run Sample.species aborted trace = (aborted, []).
Proof.
  intros env bad.
  assert (Hin : In bad Sample.corrupt_dir) by (right; left; reflexivity).
  split; [reflexivity |]. split; [exact Hin |].
  do 2 (split; [reflexivity |]).
  apply (corrupt_bundle_aborts_startup Sample.species env Sample.corrupt_dir
           bad UnpicklingError);
    [reflexivity | exact Hin | reflexivity | reflexivity].
Defined.

Lemma lookup_by_type_first_match_witness :
  registry_ok Sample.registry = true /\
  (exists v,
      next_match Sample.registry "tree" Sample.noon Sample.registry
      = (Ok v, Sample.registry)) /\
  (forall before m after,
      Sample.registry = (before ++ m :: after)%list ->
      existsb (has_type "tree") before = false ->
      has_type "tree" m = true ->
      next_match Sample.registry "tree" Sample.noon Sample.registry
      = (Ok m, Sample.registry)) /\
  (type_present Sample.registry "tree" = false ->
   next_match Sample.registry "tree" Sample.noon Sample.registry
   = (Ok VNone, Sample.registry)).
Proof.
  split; [vm_compute; reflexivity |].
  apply (lookup_by_type_first_match Sample.registry "tree" Sample.noon
           Sample.registry).
  vm_compute; reflexivity.
Defined.

Lemma predict_is_repeatable_witness :
  (forall m c,
      In m Sample.registry -> getitem m "model" = Ok (VObj c) ->
      deterministic c) /\
  let first :=
    handle Sample.species Sample.post (POST_predict "tree" Sample.flower)
      Sample.noon Sample.registry in
  let second :=
    handle Sample.species Sample.post (POST_predict "tree" Sample.flower)
      Sample.later Sample.registry in
  data_field (fst first) "prediction" = data_field (fst second) "prediction" /\
  data_field (fst first) "predicted_type"
  = data_field (fst second) "predicted_type" /\
  _predict Sample.species Sample.post ("tree", Sample.flower) Sample.noon
    Sample.registry
  = _predict Sample.species Sample.post ("tree", Sample.flower) Sample.later
      Sample.registry.
Proof.
  assert (Hdet : forall m c,
             In m Sample.registry -> getitem m "model" = Ok (VObj c) ->
             deterministic c).
  { intros m c Hin Hmodel.
    simpl in Hin. destruct Hin as [<- | [<- | [<- | []]]];
      vm_compute in Hmodel; inversion Hmodel; subst c;
      intros h1 h2 features; reflexivity. }
  split; [exact Hdet |].
  apply (predict_is_repeatable Sample.species Sample.post Sample.post "tree"
           Sample.flower Sample.noon Sample.later Sample.registry Hdet).
Defined.

Lemma predict_echoes_features_witness :
  let envelope :=
    VDict [ ("message", VStr "OK");
            ("method", VStr "POST");
            ("status-code", VInt 200);
            ("timestamp", VStr "2021-11-04T12:00:00.000000");
            ("url", VStr "http://testserver/models/tree");
            ("data",
              VDict [ ("model-type", VStr "tree");
                      ("features", echoed_features Sample.flower);
                      ("prediction", VInt 0);
                      ("predicted_type", VStr "setosa") ]) ] in
  handle Sample.species Sample.post (POST_predict "tree" Sample.flower)
    Sample.noon Sample.registry
  = (Ok envelope, Sample.registry) /\
  getitem envelope "status-code" = Ok (VInt 200) /\
  exists data,
    getitem envelope "data" = Ok data /\
    getitem data "features"
    = Ok (VDict [ ("sepal_length", VFloat 5.5%float);
                  ("sepal_width", VFloat 3.5%float);
                  ("petal_length", VFloat 1.5%float);
                  ("petal_width", VFloat 0.25%float) ]).
Proof.
  intros envelope.
  split; [vm_compute; reflexivity |]. split; [reflexivity |].
  apply (predict_echoes_features Sample.species Sample.post "tree"
           Sample.flower Sample.noon Sample.registry envelope Sample.registry);
    vm_compute; reflexivity.
Defined.

Lemma predict_failure_is_unhandled_witness :
  registry_ok Sample.broken_registry = true /\
  first_of_type Sample.broken_registry "tree"
  = Some (Sample.wrapper "tree" Sample.broken 3 10) /\
  getitem (Sample.wrapper "tree" Sample.broken 3 10) "model"
  = Ok (VObj Sample.broken) /\
  handle Sample.species Sample.post (POST_predict "tree" Sample.flower)
    Sample.noon Sample.broken_registry
  = (Raise (ModelError "bad input"), Sample.broken_registry).
Proof.
  do 3 (split; [vm_compute; reflexivity |]).
  apply (predict_failure_is_unhandled Sample.species Sample.post "tree"
           Sample.flower Sample.noon Sample.broken_registry
           (Sample.wrapper "tree" Sample.broken 3 10) Sample.broken);
    vm_compute; reflexivity.
Defined.

(** * Further properties of the code *)

(** ** [lifespan] *)

Lemma load_models_all_ok (paths : list DirEntry) (loaded : list value) env s :
  Forall2 (fun path v => unpickled path = Ok v) paths loaded ->
  load_models paths env s = (Ok tt, (s ++ loaded)%list).
Proof.
  intros Hall. revert s.
  induction Hall as [| path v paths loaded Hv Hall IH]; intros s; simpl.
  - rewrite app_nil_r. reflexivity.
  - unfold bind at 1. unfold lift. rewrite Hv.
    unfold bind, append_model. rewrite IH, <- app_assoc. reflexivity.
Qed.

Lemma load_models_app (before after : list DirEntry) (loaded : list value)
  env s :
  Forall2 (fun path v => unpickled path = Ok v) before loaded ->
  load_models (before ++ after) env s
  = load_models after env (s ++ loaded)%list.
Proof.
  intros Hall. revert s.
  induction Hall as [| path v paths loaded Hv Hall IH]; intros s; simpl.
  - rewrite app_nil_r. reflexivity.
  - unfold bind at 1. unfold lift. rewrite Hv.
    unfold bind, append_model. rewrite IH, <- app_assoc. reflexivity.
Qed.

(** X1. The start-up reaches its [yield] exactly when the directory can be
    listed and every entry with suffix [.pkl] unpickles; the other entries
    are never opened, so they cannot make it fail. *)
Theorem startup_succeeds_iff env s :
  fst (lifespan_startup env s) = Ok tt <->
  exists entries,
    iterdir env = Ok entries /\
    Forall (fun path => exists v, unpickled path = Ok v) (model_paths entries).
Proof.
  rewrite lifespan_startup_eq. split.
  - destruct (iterdir env) as [entries | e]; [| discriminate].
    intros Hrun. exists entries. split; [reflexivity |].
    pose proof (load_models_result (model_paths entries) env s) as Hload.
    destruct (load_models (model_paths entries) env s) as [[u | e] s'];
      [| discriminate Hrun].
    destruct Hload as (loaded & Hall & _).
    clear Hrun. induction Hall as [| p v ps vs Hp Hall IH]; constructor.
    + exists v. exact Hp.
    + exact IH.
  - intros (entries & -> & Hall).
    assert (Hloaded : exists loaded,
               Forall2 (fun path v => unpickled path = Ok v)
                 (model_paths entries) loaded).
    { induction Hall as [| p ps [v Hv] Hall [loaded IH]].
      - exists []. constructor.
      - exists (v :: loaded). constructor; assumption. }
    destruct Hloaded as [loaded Hloaded].
    rewrite (load_models_all_ok _ loaded env s Hloaded). reflexivity.
Qed.

(** X2. The start-up appends: when it succeeds, the list afterwards is the
    list it found, whatever that held, followed by what the [.pkl] entries
    unpickle to, in directory order. *)
Theorem startup_appends env s u s' :
  lifespan_startup env s = (Ok u, s') ->
  exists entries loaded,
    iterdir env = Ok entries /\
    Forall2 (fun path v => unpickled path = Ok v)
      (model_paths entries) loaded /\
    s' = (s ++ loaded)%list.
Proof.
  rewrite lifespan_startup_eq.
  destruct (iterdir env) as [entries | e]; [| discriminate].
  intros Hrun. exists entries.
  pose proof (load_models_result (model_paths entries) env s) as Hload.
  rewrite Hrun in Hload. destruct Hload as (loaded & Hall & ->).
  exists loaded. repeat split. exact Hall.
Qed.

(** X3. A start-up that fails is not rolled back: when the [.pkl] entries
    before the first one that cannot be unpickled load, the start-up raises
    the error of that entry and leaves in the list what it found followed
    by the wrappers loaded so far; the entries after it are not opened. *)
Theorem startup_failure_keeps_partial_list
  env s entries before bad after loaded e :
  iterdir env = Ok entries ->
  model_paths entries = (before ++ bad :: after)%list ->
  Forall2 (fun path v => unpickled path = Ok v) before loaded ->
  unpickled bad = Raise e ->
  lifespan_startup env s = (Raise e, (s ++ loaded)%list).
Proof.
  intros Hdir Hsplit Hall Hbad.
  rewrite lifespan_startup_eq, Hdir, Hsplit.
  rewrite (load_models_app before (bad :: after) loaded env s Hall).
  simpl. unfold bind, lift. rewrite Hbad. reflexivity.
Qed.

(** ** [construct_response], for any decorated function *)

Lemma dict_contains_keys (d : dict) (k : string) :
  dict_contains d k = true -> In k (dict_keys d).
Proof.
  unfold dict_contains.
  induction d as [| [k' v] rest IH]; simpl; [discriminate |].
  destruct (String.eqb_spec k' k) as [-> | _].
  - intros _. left. reflexivity.
  - intros H. right. apply IH, H.
Qed.

(** X4. Whatever function is decorated, when it returns a dict with a
    message and a status code, the envelope holds that message, that status
    code and, if and only if the dict has a data key, that data, whatever
    its value; no other key of the function's result reaches the envelope. *)
Theorem decorator_forwards_three_keys {Args : Type}
  (f : Request -> Args -> M value) request args env s r s' msg sc :
  f request args env s = (Ok (VDict r), s') ->
  dict_get r "message" = Some msg ->
  dict_get r "status-code" = Some sc ->
  exists d,
    construct_response f request args env s = (Ok (VDict d), s') /\
    dict_get d "message" = Some msg /\
    dict_get d "status-code" = Some sc /\
    dict_get d "data" = dict_get r "data" /\
    forall k, dict_contains d k = true -> In k (envelope_keys ++ ["data"])%list.
Proof.
  intros Hf Hmsg Hsc.
  rewrite (construct_response_ok f request args env s r s' msg sc Hf Hmsg Hsc).
  eexists. split; [reflexivity |].
  destruct (dict_get r "data") as [data |];
    do 3 (split; [reflexivity |]);
    intros k Hk; apply dict_contains_keys in Hk;
    unfold dict_keys, envelope_keys in *; simpl in *; tauto.
Qed.

(** X5. The decorator requires both keys: when the decorated function
    returns a dict without a message the call raises [KeyError] for
    ["message"], and when it has a message but no status code, [KeyError]
    for ["status-code"]; no envelope is built. *)
Theorem decorator_requires_message_and_status {Args : Type}
  (f : Request -> Args -> M value) request args env s r s' :
  f request args env s = (Ok (VDict r), s') ->
  (dict_get r "message" = None ->
   construct_response f request args env s = (Raise (KeyError "message"), s'))
  /\
  (dict_get r "message" <> None ->
   dict_get r "status-code" = None ->
   construct_response f request args env s
   = (Raise (KeyError "status-code"), s')).
Proof.
  intros Hf. unfold construct_response.
  rewrite (bind_ok _ _ _ _ _ _ Hf). unfold bind, lift, getitem.
  split.
  - intros ->. reflexivity.
  - intros Hmsg ->.
    destruct (dict_get r "message"); [reflexivity | contradiction].
Qed.

(** X6. Whatever function is decorated, the call returns an envelope
    exactly when the function returns a dict that has a message and a
    status code: an exception of the function, a result that is no dict and
    a missing key all leave the call as exceptions. *)
Theorem decorator_returns_iff {Args : Type}
  (f : Request -> Args -> M value) request args env s :
  (exists envelope,
      fst (construct_response f request args env s) = Ok envelope)
  <->
  (exists r,
      fst (f request args env s) = Ok (VDict r) /\
      dict_contains r "message" = true /\
      dict_contains r "status-code" = true).
Proof.
  destruct (f request args env s) as [[results | e] s'] eqn:Hf; simpl.
  - split.
    + intros [envelope Hrun]. unfold construct_response in Hrun.
      rewrite (bind_ok _ _ _ _ _ _ Hf) in Hrun.
      unfold bind, lift, dict_contains in *.
      destruct results as [| | | | | | r |]; try discriminate Hrun.
      exists r. split; [reflexivity |]. simpl in Hrun.
      destruct (dict_get r "message"); [| discriminate Hrun].
      destruct (dict_get r "status-code"); [| discriminate Hrun].
      split; reflexivity.
    + intros (r & Hr & Hmsg & Hsc). injection Hr as ->.
      unfold dict_contains in Hmsg, Hsc.
      destruct (dict_get r "message") as [msg |] eqn:Hm; [| discriminate].
      destruct (dict_get r "status-code") as [sc |] eqn:Hs; [| discriminate].
      rewrite (construct_response_ok f request args env s r s' msg sc
                 Hf Hm Hs).
      eexists. reflexivity.
  - split.
    + intros [envelope Hrun].
      rewrite (construct_response_raise f request args env s e s' Hf) in Hrun.
      discriminate Hrun.
    + intros (r & Hr & _). discriminate Hr.
Qed.

(** ** The scan of [_predict], on any list *)

Lemma skipped_has_type (type : string) (m : value) :
  skipped type m = true -> has_type type m = false.
Proof.
  unfold skipped, has_type. destruct (getitem m "type") as [ty | e].
  - intros H. apply negb_true_iff in H. exact H.
  - reflexivity.
Qed.

Lemma has_type_found (type : string) (m : value) :
  has_type type m = true ->
  getitem m "type" = Ok (VStr type) /\ truthy m = true.
Proof.
  unfold has_type.
  destruct m as [| | | | | | d |]; simpl; try discriminate.
  destruct (dict_get d "type") as [ty |] eqn:Hty; [| discriminate].
  destruct ty as [| | | | t | | |]; simpl; try discriminate.
  intros Ht. apply String.eqb_eq in Ht. subst t.
  split; [reflexivity |].
  destruct d; [discriminate Hty | reflexivity].
Qed.

Lemma next_match_at (type : string) before m after env s :
  forallb (skipped type) before = true ->
  has_type type m = true ->
  next_match (before ++ m :: after) type env s = (Ok m, s).
Proof.
  intros Hbefore Hm.
  induction before as [| x before IH]; simpl in *.
  - unfold has_type in Hm. unfold bind, lift.
    destruct (getitem m "type") as [ty | e]; [| discriminate Hm].
    rewrite Hm. reflexivity.
  - apply andb_prop in Hbefore. destruct Hbefore as [Hx Hbefore].
    unfold skipped in Hx. unfold bind, lift.
    destruct (getitem x "type") as [ty | e]; [| discriminate Hx].
    apply negb_true_iff in Hx. rewrite Hx. apply IH, Hbefore.
Qed.

Lemma next_match_outcome (models : list value) (type : string) env s m s' :
  next_match models type env s = (Ok m, s') ->
  s' = s /\
  ((m = VNone /\ existsb (has_type type) models = false) \/
   (has_type type m = true /\ existsb (has_type type) models = true)).
Proof.
  induction models as [| x rest IH]; simpl.
  - unfold ret. intros H. inversion H. split; [reflexivity |].
    left. split; reflexivity.
  - unfold bind, lift.
    destruct (getitem x "type") as [ty | e] eqn:Hty; [| discriminate].
    assert (Hx : has_type type x = eq_str ty type).
    { unfold has_type. rewrite Hty. reflexivity. }
    rewrite Hx. destruct (eq_str ty type) eqn:Heq.
    + unfold ret. intros H. inversion H. subst. split; [reflexivity |].
      right. split; [exact Hx | reflexivity].
    + intros H. destruct (IH H) as [Hs Hcases]. split; [exact Hs |].
      simpl. exact Hcases.
Qed.

(** ** Everything but [read_models] ignores the store *)

Create HintDb blind discriminated.

Lemma store_blind_ret {A : Type} (a : A) : store_blind (ret a).
Proof. intros env s1 s2. reflexivity. Qed.

Lemma store_blind_lift {A : Type} (r : result A) : store_blind (lift r).
Proof. intros env s1 s2. reflexivity. Qed.

Lemma store_blind_ask : store_blind ask.
Proof. intros env s1 s2. reflexivity. Qed.

Lemma store_blind_bind {A B : Type} (m : M A) (k : A -> M B) :
  store_blind m -> (forall a, store_blind (k a)) -> store_blind (bind m k).
Proof.
  intros Hm Hk env s1 s2. unfold bind.
  specialize (Hm env s1 s2).
  destruct (m env s1) as [[a1 | e1] t1]; destruct (m env s2) as [[a2 | e2] t2];
    simpl in Hm; inversion Hm; subst; [apply Hk | reflexivity].
Qed.

Lemma store_blind_if {A : Type} (b : bool) (m1 m2 : M A) :
  store_blind m1 -> store_blind m2 -> store_blind (if b then m1 else m2).
Proof. destruct b; auto. Qed.

#[local] Hint Resolve store_blind_ret store_blind_lift store_blind_ask
  store_blind_if : blind.
#[local] Hint Extern 2 (store_blind (bind _ _)) =>
  apply store_blind_bind; [ | intro ] : blind.

Lemma store_blind_next_match (models : list value) (type : string) :
  store_blind (next_match models type).
Proof.
  induction models as [| m rest IH]; simpl; auto 10 with blind.
Qed.

Lemma store_blind_call_predict (model : value) features :
  store_blind (call_predict model features).
Proof. destruct model; simpl; auto with blind. Qed.

#[local] Hint Resolve store_blind_next_match store_blind_call_predict : blind.

Lemma bind_fst_congr {A B : Type} (m1 m2 : M A) (k : A -> M B) env s1 s2 :
  fst (m1 env s1) = fst (m2 env s2) ->
  (forall a, store_blind (k a)) ->
  fst (bind m1 k env s1) = fst (bind m2 k env s2).
Proof.
  intros Hm Hk. unfold bind.
  destruct (m1 env s1) as [[a1 | e1] t1]; destruct (m2 env s2) as [[a2 | e2] t2];
    simpl in Hm; inversion Hm; subst; [apply Hk | reflexivity].
Qed.

Lemma bind_read_models {B : Type} (k : list value -> M B) env s :
  bind read_models k env s = k s env s.
Proof. reflexivity. Qed.

(** X7. Only the list up to the first item of the requested type matters to
    a prediction: whatever follows that item in the list, be it further
    wrappers of the same type or items that are no wrappers at all, the
    predict endpoint returns or raises the same. *)
Theorem predict_ignores_what_follows_the_match
  IrisType request type payload env before m after :
  has_type type m = true ->
  fst (handle IrisType request (POST_predict type payload) env
         (before ++ m :: after)%list)
  = fst (handle IrisType request (POST_predict type payload) env
           (before ++ [m])%list).
Proof.
  intros Hm. simpl handle.
  assert (Hscan : forall s1 s2,
             fst (next_match (before ++ m :: after)%list type env s1)
             = fst (next_match (before ++ [m])%list type env s2)).
  { induction before as [| x before IH]; intros s1 s2; simpl.
    - unfold has_type in Hm. unfold bind, lift.
      destruct (getitem m "type") as [ty | e]; [| discriminate Hm].
      rewrite Hm. reflexivity.
    - unfold bind, lift.
      destruct (getitem x "type") as [ty | e]; [| reflexivity].
      destruct (eq_str ty type); [reflexivity | apply IH]. }
  unfold construct_response.
  apply bind_fst_congr; [| intros results; auto 12 with blind].
  unfold _predict. rewrite !bind_read_models.
  apply bind_fst_congr; [apply Hscan |].
  intros model_wrapper. auto 15 with blind.
Qed.

(** ** Every response of [_predict], on any list *)

Lemma predict_ok_inv IrisType request type payload env s results s' :
  _predict IrisType request (type, payload) env s = (Ok results, s') ->
  (results = VDict [ ("message", VStr "Model not found");
                     ("status-code", VInt 400) ]
   /\ type_present s type = false)
  \/
  (type_present s type = true /\
   exists z member,
     enum_by_value IrisType z = Ok member /\
     results = VDict
                 [ ("message", VStr "OK");
                   ("status-code", VInt 200);
                   ("data",
                     VDict [ ("model-type", VStr type);
                             ("features", echoed_features payload);
                             ("prediction", VInt z);
                             ("predicted_type", VStr (enum_name member)) ]) ]).
Proof.
  unfold _predict. rewrite bind_read_models. intros H.
  apply bind_inv in H. destruct H as (m & s1 & Hscan & H).
  destruct (next_match_outcome s type env s m s1 Hscan)
    as [-> [[-> Habs] | [Hm Hpres]]].
  - simpl in H. inversion H. subst. left. split; [reflexivity | exact Habs].
  - destruct (has_type_found type m Hm) as [Hty Htruthy].
    rewrite Htruthy in H.
    apply bind_inv in H. destruct H as (model & s2 & _ & H).
    apply bind_inv in H. destruct H as (prediction & s3 & _ & H).
    apply bind_inv in H. destruct H as (z & s4 & _ & H).
    apply bind_inv in H. destruct H as (member & s5 & Hmember & H).
    apply lift_inv in Hmember. destruct Hmember as [Hmember ->].
    apply bind_inv in H. destruct H as (model_type & s6 & Hmt & H).
    apply lift_inv in Hmt. destruct Hmt as [Hmt ->].
    rewrite Hty in Hmt. inversion Hmt. subst model_type.
    unfold ret in H. inversion H.
    right. split; [exact Hpres |].
    exists z, member. split; [exact Hmember | reflexivity].
Qed.

(** X8. On any list of models, whenever the predict endpoint returns, the
    envelope is one of two: status code 400 with message "Model not found"
    and no data, and then no item of the list has the requested type; or
    status code 200 with message "OK" and data, and then some item has
    it.  The truth test [if model_wrapper] never takes a found wrapper for
    a missing one. *)
Theorem predict_answers_400_or_200
  IrisType request type payload env s envelope s' :
  handle IrisType request (POST_predict type payload) env s
  = (Ok envelope, s') ->
  (getitem envelope "status-code" = Ok (VInt 400) /\
   getitem envelope "message" = Ok (VStr "Model not found") /\
   contains envelope "data" = Ok false /\
   type_present s type = false)
  \/
  (getitem envelope "status-code" = Ok (VInt 200) /\
   getitem envelope "message" = Ok (VStr "OK") /\
   contains envelope "data" = Ok true /\
   type_present s type = true).
Proof.
  intros Hrun. simpl handle in Hrun. pose proof Hrun as Hfull.
  unfold construct_response in Hrun. apply bind_inv in Hrun.
  destruct Hrun as (results & s1 & Hraw & _).
  destruct (predict_ok_inv IrisType request type payload env s results s1 Hraw)
    as [[-> Habs] | (Hpres & z & member & _ & ->)];
    rewrite (construct_response_ok (_predict IrisType) request
               (type, payload) env s _ s1 _ _ Hraw eq_refl eq_refl) in Hfull;
    inversion Hfull; subst envelope.
  - left. repeat split; assumption || reflexivity.
  - right. repeat split; assumption || reflexivity.
Qed.

(** X9. On any list of models, every response of the predict endpoint that
    carries data names the requested type as model type, and its predicted
    type is the name of a member of [IrisType] whose value is its
    prediction: no label from outside the enumeration, and no label that
    contradicts the index, is ever sent. *)
Theorem predict_label_matches_index
  IrisType request type payload env s envelope s' data :
  handle IrisType request (POST_predict type payload) env s
  = (Ok envelope, s') ->
  getitem envelope "data" = Ok data ->
  exists z member,
    getitem data "model-type" = Ok (VStr type) /\
    getitem data "prediction" = Ok (VInt z) /\
    getitem data "predicted_type" = Ok (VStr (enum_name member)) /\
    In member IrisType /\
    snd member = z.
Proof.
  intros Hrun Hdata. simpl handle in Hrun. pose proof Hrun as Hfull.
  unfold construct_response in Hrun. apply bind_inv in Hrun.
  destruct Hrun as (results & s1 & Hraw & _).
  destruct (predict_ok_inv IrisType request type payload env s results s1 Hraw)
    as [[-> Habs] | (Hpres & z & member & Hmember & ->)];
    rewrite (construct_response_ok (_predict IrisType) request
               (type, payload) env s _ s1 _ _ Hraw eq_refl eq_refl) in Hfull;
    inversion Hfull; subst envelope.
  - discriminate Hdata.
  - simpl in Hdata. inversion Hdata. subst data.
    destruct (enum_by_value_member IrisType z member Hmember)
      as (Hin & Hz & _).
    exists z, member. repeat split; assumption || reflexivity.
Qed.

(** ** A matched item that is no model wrapper *)

Lemma predict_at_match IrisType request type payload env before m after :
  forallb (skipped type) before = true ->
  has_type type m = true ->
  _predict IrisType request (type, payload) env (before ++ m :: after)%list
  = (match getitem m "model" with
     | Raise e => Raise e
     | Ok (VObj c) =>
         match predict c (hidden env) (feature_vector payload) with
         | Raise e => Raise e
         | Ok [] => Raise IndexError
         | Ok (z :: _) =>
             match enum_by_value IrisType z with
             | Raise e => Raise e
             | Ok member =>
                 Ok (VDict
                       [ ("message", VStr "OK");
                         ("status-code", VInt 200);
                         ("data",
                           VDict [ ("model-type", VStr type);
                                   ("features", echoed_features payload);
                                   ("prediction", VInt z);
                                   ("predicted_type",
                                     VStr (enum_name member)) ]) ])
             end
         end
     | Ok _ => Raise AttributeError
     end, (before ++ m :: after)%list).
Proof.
  intros Hbefore Hm.
  destruct (has_type_found type m Hm) as [Hty Htruthy].
  unfold _predict. rewrite bind_read_models.
  rewrite (bind_ok _ _ _ _ _ _
             (next_match_at type before m after env _ Hbefore Hm)).
  rewrite Htruthy.
  unfold bind at 1. unfold lift at 1.
  destruct (getitem m "model") as [model | e]; [| reflexivity].
  destruct model as [| | | | | | | c];
    try reflexivity.
  unfold call_predict, bind, lift, ask, ret.
  destruct (predict c (hidden env) (feature_vector payload))
    as [[| z rest] | e]; try reflexivity.
  simpl. destruct (enum_by_value IrisType z) as [member | e]; [| reflexivity].
  rewrite Hty. reflexivity.
Qed.

(** X10. When the classifier of the first item with the requested type
    returns an empty array for the feature vector, [prediction[0]] fails:
    the predict endpoint raises [IndexError] and builds no envelope. *)
Theorem predict_empty_prediction_raises
  IrisType request type payload env before m after c :
  forallb (skipped type) before = true ->
  has_type type m = true ->
  getitem m "model" = Ok (VObj c) ->
  predict c (hidden env) (feature_vector payload) = Ok [] ->
  handle IrisType request (POST_predict type payload) env
    (before ++ m :: after)%list
  = (Raise IndexError, (before ++ m :: after)%list).
Proof.
  intros Hbefore Hm Hmodel Hpred. simpl handle.
  apply construct_response_raise.
  rewrite (predict_at_match IrisType request type payload env before m after
             Hbefore Hm), Hmodel, Hpred.
  reflexivity.
Qed.

(** X11. When the first item with the requested type has nothing under
    ["model"], the predict endpoint raises [KeyError] for ["model"]; when
    what it has there is [None], a number, a string, a list or a dict, it
    raises [AttributeError].  Either way no envelope is built, and the
    request is not answered with "Model not found". *)
Theorem predict_without_classifier_raises
  IrisType request type payload env before d after :
  forallb (skipped type) before = true ->
  has_type type (VDict d) = true ->
  (dict_get d "model" = None ->
   handle IrisType request (POST_predict type payload) env
     (before ++ VDict d :: after)%list
   = (Raise (KeyError "model"), (before ++ VDict d :: after)%list))
  /\
  (forall v,
      dict_get d "model" = Some v ->
      (forall c, v <> VObj c) ->
      handle IrisType request (POST_predict type payload) env
        (before ++ VDict d :: after)%list
      = (Raise AttributeError, (before ++ VDict d :: after)%list)).
Proof.
  intros Hbefore Hm.
  pose proof (predict_at_match IrisType request type payload env before
                (VDict d) after Hbefore Hm) as Hraw.
  simpl getitem in Hraw. split.
  - intros Hnone. rewrite Hnone in Hraw. simpl handle.
    apply construct_response_raise, Hraw.
  - intros v Hv Hnot. rewrite Hv in Hraw. simpl handle.
    apply construct_response_raise. rewrite Hraw.
    destruct v as [| | | | | | | c]; try reflexivity.
    exfalso. apply (Hnot c). reflexivity.
Qed.

(** ** [_get_models_list], on any list *)

Lemma available_model_listable (m : value) env s :
  listable m = true ->
  exists entry, available_model m env s = (Ok entry, s) /\ projection_of m entry.
Proof.
  unfold listable, available_model, projection_of, bind, lift, ret.
  destruct (getitem m "type") as [ty | e]; [| discriminate].
  destruct (getitem m "params") as [params | e]; [| discriminate].
  destruct (getitem m "metrics") as [metrics | e]; [| discriminate].
  intros _. eexists. split; [reflexivity |].
  exists ty, params, metrics. repeat split; reflexivity.
Qed.

Lemma available_model_unlistable (m : value) env s :
  listable m = false ->
  exists e,
    available_model m env s = (Raise e, s) /\
    (getitem m "type" = Raise e \/
     (exists ty, getitem m "type" = Ok ty /\ getitem m "params" = Raise e) \/
     (exists ty params,
         getitem m "type" = Ok ty /\ getitem m "params" = Ok params /\
         getitem m "metrics" = Raise e)).
Proof.
  unfold listable, available_model, bind, lift, ret.
  destruct (getitem m "type") as [ty | e].
  - destruct (getitem m "params") as [params | e].
    + destruct (getitem m "metrics") as [metrics | e]; [discriminate |].
      intros _. exists e. split; [reflexivity |].
      right. right. exists ty, params. repeat split; reflexivity.
    + intros _. exists e. split; [reflexivity |].
      right. left. exists ty. split; reflexivity.
  - intros _. exists e. split; [reflexivity |]. left. reflexivity.
Qed.

Lemma comprehension_listable (models : list value) env s :
  forallb listable models = true ->
  exists entries,
    comprehension available_model models env s = (Ok entries, s) /\
    Forall2 projection_of models entries.
Proof.
  induction models as [| m rest IH]; simpl; intros Hall.
  - exists []. split; [reflexivity | constructor].
  - apply andb_prop in Hall. destruct Hall as [Hm Hrest].
    destruct (available_model_listable m env s Hm) as (entry & Hitem & Hproj).
    destruct (IH Hrest) as (entries & Hrun & Hall).
    exists (entry :: entries). split; [| constructor; assumption].
    rewrite (bind_ok _ _ _ _ _ _ Hitem), (bind_ok _ _ _ _ _ _ Hrun).
    reflexivity.
Qed.

Lemma comprehension_first_failure (before after : list value) (bad : value)
  env s e :
  forallb listable before = true ->
  available_model bad env s = (Raise e, s) ->
  comprehension available_model (before ++ bad :: after) env s = (Raise e, s).
Proof.
  intros Hbefore Hbad.
  induction before as [| m before IH]; simpl in *.
  - rewrite (bind_raise _ _ _ _ _ _ Hbad). reflexivity.
  - apply andb_prop in Hbefore. destruct Hbefore as [Hm Hbefore].
    destruct (available_model_listable m env s Hm) as (entry & Hitem & _).
    rewrite (bind_ok _ _ _ _ _ _ Hitem).
    rewrite (bind_raise _ _ _ _ _ _ (IH Hbefore)). reflexivity.
Qed.

Lemma not_listable_split (models : list value) :
  forallb listable models = false ->
  exists before bad after,
    models = (before ++ bad :: after)%list /\
    forallb listable before = true /\
    listable bad = false.
Proof.
  induction models as [| m rest IH]; simpl; [discriminate |].
  destruct (listable m) eqn:Hm; simpl.
  - intros Hrest. destruct (IH Hrest) as (before & bad & after & -> & Hb & Hbad).
    exists (m :: before), bad, after. simpl. rewrite Hm.
    repeat split; assumption.
  - intros _. exists [], m, rest. repeat split; assumption.
Qed.

(** X12. [GET /models] looks at the type, params and metrics of every item
    and at nothing else: it returns, with status code 200 and the
    projection of every item in list order as data, exactly when every
    item of the list has these three keys, whether or not it holds a
    classifier. *)
Theorem models_list_returns_iff_listable IrisType request env s :
  (forallb listable s = true ->
   exists entries,
     handle IrisType request GET_models_list env s
     = (Ok (VDict
              [ ("message", VStr "OK");
                ("method", VStr (method request));
                ("status-code", VInt 200);
                ("timestamp", VStr (now_isoformat env));
                ("url", VStr (url request));
                ("data", VList entries) ]), s) /\
     Forall2 projection_of s entries)
  /\
  (forall envelope s',
      handle IrisType request GET_models_list env s = (Ok envelope, s') ->
      forallb listable s = true).
Proof.
  split.
  - intros Hall.
    destruct (comprehension_listable s env s Hall) as (entries & Hrun & Hproj).
    exists entries. split; [| exact Hproj].
    simpl handle.
    assert (Hraw : _get_models_list request tt env s
                   = (Ok (VDict [ ("message", VStr "OK");
                                  ("status-code", VInt 200);
                                  ("data", VList entries) ]), s)).
    { unfold _get_models_list. rewrite bind_read_models.
      rewrite (bind_ok _ _ _ _ _ _ Hrun). reflexivity. }
    rewrite (construct_response_ok _get_models_list request tt env s
               _ s _ _ Hraw eq_refl eq_refl).
    reflexivity.
  - intros envelope s' Hrun.
    destruct (forallb listable s) eqn:Hall; [reflexivity | exfalso].
    destruct (not_listable_split s Hall)
      as (before & bad & after & Hsplit & Hbefore & Hbad).
    destruct (available_model_unlistable bad env s Hbad) as (e & Hitem & _).
    simpl handle in Hrun. unfold construct_response in Hrun.
    apply bind_inv in Hrun. destruct Hrun as (results & s1 & Hraw & _).
    unfold _get_models_list in Hraw. rewrite bind_read_models in Hraw.
    apply bind_inv in Hraw. destruct Hraw as (entries & s2 & Hcomp & _).
    rewrite Hsplit in Hcomp at 1.
    rewrite (comprehension_first_failure before after bad env s e
               Hbefore Hitem) in Hcomp.
    discriminate Hcomp.
Qed.

(** X13. The listing is all or nothing: when an item of the list lacks
    one of type, params and metrics, and the items before it have all
    three, [GET /models] raises the error of the first failing subscript
    of that item, and no partial list is sent. *)
Theorem models_list_fails_on_first_unlistable
  IrisType request env before bad after :
  forallb listable before = true ->
  listable bad = false ->
  exists e,
    handle IrisType request GET_models_list env (before ++ bad :: after)%list
    = (Raise e, (before ++ bad :: after)%list) /\
    (getitem bad "type" = Raise e \/
     (exists ty, getitem bad "type" = Ok ty /\ getitem bad "params" = Raise e)
     \/
     (exists ty params,
         getitem bad "type" = Ok ty /\ getitem bad "params" = Ok params /\
         getitem bad "metrics" = Raise e)).
Proof.
  intros Hbefore Hbad.
  destruct (available_model_unlistable bad env (before ++ bad :: after)%list
              Hbad) as (e & Hitem & Hwhich).
  exists e. split; [| exact Hwhich].
  simpl handle. apply construct_response_raise.
  unfold _get_models_list. rewrite bind_read_models.
  apply bind_raise.
  apply (comprehension_first_failure before after bad env _ e Hbefore Hitem).
Qed.

(** ** The two endpoints together *)

Lemma has_type_iff (type : string) (m : value) :
  has_type type m = true <-> getitem m "type" = Ok (VStr type).
Proof.
  split.
  - intros H. apply (has_type_found type m H).
  - intros H. unfold has_type. rewrite H. simpl. apply String.eqb_refl.
Qed.

Lemma listed_iff_present (type : string) (models entries : list value) :
  Forall2 projection_of models entries ->
  (exists entry, In entry entries /\ getitem entry "type" = Ok (VStr type))
  <-> existsb (has_type type) models = true.
Proof.
  intros Hall. induction Hall as [| m entry models entries Hproj Hall IH].
  - simpl. split; [intros (entry & [] & _) | discriminate].
  - destruct Hproj as (ty & params & metrics & Hty & _ & _ & ->).
    simpl existsb. rewrite orb_true_iff, <- IH, has_type_iff, Hty. split.
    + intros (entry & [<- | Hin] & Hentry).
      * left. exact Hentry.
      * right. exists entry. split; assumption.
    + intros [Hm | (entry & Hin & Hentry)].
      * eexists. split; [left; reflexivity | exact Hm].
      * exists entry. split; [right; exact Hin | exact Hentry].
Qed.

Lemma registry_ok_listable (models : store) :
  registry_ok models = true -> forallb listable models = true.
Proof.
  unfold registry_ok. induction models as [| m rest IH]; simpl; [reflexivity |].
  intros H. apply andb_prop in H. destruct H as [Hm Hrest].
  rewrite (IH Hrest), andb_true_r.
  destruct (is_model_wrapper_fields m Hm)
    as (d & ty & c & params & metrics & -> & Hty & _ & Hparams & Hmetrics).
  unfold listable, getitem. rewrite Hty, Hparams, Hmetrics. reflexivity.
Qed.

(** X14. On a registry of model wrappers, the types that [GET /models]
    lists are exactly the types that [POST /models/{type}] does not answer
    with status code 400: what is listed can be asked for, and what is not
    listed is "Model not found". *)
Theorem listed_types_are_the_served_types
  IrisType get post type payload env1 env2 models listing s1 entries :
  registry_ok models = true ->
  handle IrisType get GET_models_list env1 models = (Ok listing, s1) ->
  getitem listing "data" = Ok (VList entries) ->
  (exists entry, In entry entries /\ getitem entry "type" = Ok (VStr type))
  <->
  ~ (exists envelope,
        fst (handle IrisType post (POST_predict type payload) env2 models)
        = Ok envelope /\
        getitem envelope "status-code" = Ok (VInt 400)).
Proof.
  intros Hok Hlist Hdata.
  assert (Hproj : Forall2 projection_of models entries).
  { simpl handle in Hlist.
    destruct (comprehension_listable models env1 models
                (registry_ok_listable models Hok)) as (es & Hrun & Hproj).
    assert (Hraw : _get_models_list get tt env1 models
                   = (Ok (VDict [ ("message", VStr "OK");
                                  ("status-code", VInt 200);
                                  ("data", VList es) ]), models)).
    { unfold _get_models_list. rewrite bind_read_models.
      rewrite (bind_ok _ _ _ _ _ _ Hrun). reflexivity. }
    rewrite (construct_response_ok _get_models_list get tt env1 models
               _ models _ _ Hraw eq_refl eq_refl) in Hlist.
    injection Hlist as Hlisting _. subst listing. simpl in Hdata.
    injection Hdata as Heq. rewrite <- Heq. exact Hproj. }
  rewrite (listed_iff_present type models entries Hproj).
  fold (type_present models type). split.
  - intros Hpres (envelope & Hrun & Hstatus).
    simpl handle in Hrun.
    destruct (construct_response (_predict IrisType) post (type, payload)
                env2 models) as [r s2] eqn:Hfull.
    simpl in Hrun. subst r. pose proof Hfull as Hinv.
    unfold construct_response in Hinv. apply bind_inv in Hinv.
    destruct Hinv as (results & s3 & Hraw & _).
    destruct (predict_ok_inv IrisType post type payload env2 models
                results s3 Hraw)
      as [[-> Habs] | (_ & z & member & _ & ->)];
      rewrite (construct_response_ok (_predict IrisType) post
                 (type, payload) env2 models _ s3 _ _ Hraw eq_refl eq_refl)
        in Hfull;
      inversion Hfull; subst envelope.
    + rewrite Habs in Hpres. discriminate Hpres.
    + discriminate Hstatus.
  - intros Hnot. destruct (type_present models type) eqn:Hpres;
      [reflexivity | exfalso].
    apply Hnot. eexists. simpl handle.
    rewrite (construct_response_ok (_predict IrisType) post (type, payload)
               env2 models _ models _ _
               (predict_not_found IrisType post type payload env2 models
                  Hok Hpres) eq_refl eq_refl).
    split; reflexivity.
Qed.

(** * The further properties at sample data *)

Lemma startup_appends_witness :
  lifespan_startup Sample.noon Sample.stray_registry
  = (Ok tt,
     [ Sample.wrapper "tree" Sample.stray 3 10;
       Sample.wrapper "tree" Sample.stump 1 95;
       Sample.wrapper "svc" Sample.stump 2 90 ]) /\
  exists entries loaded,
    iterdir Sample.noon = Ok entries /\
    Forall2 (fun path v => unpickled path = Ok v)
      (model_paths entries) loaded /\
    [ Sample.wrapper "tree" Sample.stray 3 10;
      Sample.wrapper "tree" Sample.stump 1 95;
      Sample.wrapper "svc" Sample.stump 2 90 ]
    = (Sample.stray_registry ++ loaded)%list.
Proof.
  split; [vm_compute; reflexivity |].
  apply (startup_appends Sample.noon Sample.stray_registry tt).
  vm_compute; reflexivity.
Defined.

Lemma startup_failure_keeps_partial_list_witness :
  let env := Sample.env Edge.half_dir "2021-11-04T11:59:00.000000" 0 in
  let a := {| filename := "a.pkl";
              unpickled := Ok (Sample.wrapper "a" Sample.stump 1 1) |} in
  let b := {| filename := "b.pkl"; unpickled := Raise UnpicklingError |} in
  let c := {| filename := "c.pkl";
              unpickled := Raise (OSError "permission") |} in
  iterdir env = Ok Edge.half_dir /\
  model_paths Edge.half_dir = ([a] ++ b :: [c])%list /\
  Forall2 (fun path v => unpickled path = Ok v) [a]
    [Sample.wrapper "a" Sample.stump 1 1] /\
  unpickled b = Raise UnpicklingError /\
  lifespan_startup env Sample.stray_registry
  = (Raise UnpicklingError,
     (Sample.stray_registry ++ [Sample.wrapper "a" Sample.stump 1 1])%list).
Proof.
  intros env a b c.
  assert (Hall : Forall2 (fun path v => unpickled path = Ok v) [a]
                   [Sample.wrapper "a" Sample.stump 1 1]).
  { constructor; [reflexivity | constructor]. }
  split; [reflexivity |]. split; [vm_compute; reflexivity |].
  split; [exact Hall |]. split; [reflexivity |].
  apply (startup_failure_keeps_partial_list env Sample.stray_registry
           Edge.half_dir [a] b [c] [Sample.wrapper "a" Sample.stump 1 1]
           UnpicklingError);
    [reflexivity | vm_compute; reflexivity | exact Hall | reflexivity].
Defined.

Lemma decorator_forwards_three_keys_witness :
  let r := [ ("status-code", VInt 202); ("debug", VStr "internal");
             ("message", VStr "Accepted"); ("data", VNone) ] in
  Edge.chatty Sample.get tt Sample.noon Sample.registry
  = (Ok (VDict r), Sample.registry) /\
  dict_get r "message" = Some (VStr "Accepted") /\
  dict_get r "status-code" = Some (VInt 202) /\
  exists d,
    construct_response Edge.chatty Sample.get tt Sample.noon Sample.registry
    = (Ok (VDict d), Sample.registry) /\
    dict_get d "message" = Some (VStr "Accepted") /\
    dict_get d "status-code" = Some (VInt 202) /\
    dict_get d "data" = dict_get r "data" /\
    forall k, dict_contains d k = true -> In k (envelope_keys ++ ["data"])%list.
Proof.
  intros r. do 3 (split; [reflexivity |]).
  apply (decorator_forwards_three_keys Edge.chatty Sample.get tt Sample.noon
           Sample.registry r Sample.registry);
    reflexivity.
Defined.

Lemma decorator_requires_message_and_status_witness :
  Edge.terse Sample.get tt Sample.noon Sample.registry
  = (Ok (VDict [("message", VStr "OK")]), Sample.registry) /\
  dict_get [("message", VStr "OK")] "message" <> None /\
  dict_get [("message", VStr "OK")] "status-code" = None /\
  construct_response Edge.terse Sample.get tt Sample.noon Sample.registry
  = (Raise (KeyError "status-code"), Sample.registry).
Proof.
  assert (Hmsg : dict_get [("message", VStr "OK")] "message" <> None)
    by discriminate.
  split; [reflexivity |]. split; [exact Hmsg |]. split; [reflexivity |].
  apply (decorator_requires_message_and_status Edge.terse Sample.get tt
           Sample.noon Sample.registry [("message", VStr "OK")]
           Sample.registry eq_refl);
    [exact Hmsg | reflexivity].
Defined.

Lemma predict_ignores_what_follows_the_match_witness :
  has_type "tree" (Sample.wrapper "tree" Sample.stump 1 95) = true /\
  fst (handle Sample.species Sample.post (POST_predict "tree" Sample.flower)
         Sample.noon
         ([] ++ Sample.wrapper "tree" Sample.stump 1 95
             :: [ Sample.wrapper "svc" Sample.stump 2 90;
                  Sample.wrapper "tree" Sample.stray 3 10 ])%list)
  = fst (handle Sample.species Sample.post (POST_predict "tree" Sample.flower)
           Sample.noon
           ([] ++ [Sample.wrapper "tree" Sample.stump 1 95])%list).
Proof.
  split; [vm_compute; reflexivity |].
  apply (predict_ignores_what_follows_the_match Sample.species Sample.post
           "tree" Sample.flower Sample.noon []
           (Sample.wrapper "tree" Sample.stump 1 95)
           [ Sample.wrapper "svc" Sample.stump 2 90;
             Sample.wrapper "tree" Sample.stray 3 10 ]).
  vm_compute; reflexivity.
Defined.

Lemma predict_answers_400_or_200_witness :
  let envelope :=
    VDict [ ("message", VStr "Model not found");
            ("method", VStr "POST");
            ("status-code", VInt 400);
            ("timestamp", VStr "2021-11-04T12:00:00.000000");
            ("url", VStr "http://testserver/models/tree") ] in
  handle Sample.species Sample.post (POST_predict "knn" Sample.flower)
    Sample.noon Sample.registry
  = (Ok envelope, Sample.registry) /\
  ((getitem envelope "status-code" = Ok (VInt 400) /\
    getitem envelope "message" = Ok (VStr "Model not found") /\
    contains envelope "data" = Ok false /\
    type_present Sample.registry "knn" = false)
   \/
   (getitem envelope "status-code" = Ok (VInt 200) /\
    getitem envelope "message" = Ok (VStr "OK") /\
    contains envelope "data" = Ok true /\
    type_present Sample.registry "knn" = true)).
Proof.
  intros envelope. split; [vm_compute; reflexivity |].
  apply (predict_answers_400_or_200 Sample.species Sample.post "knn"
           Sample.flower Sample.noon Sample.registry envelope Sample.registry).
  vm_compute; reflexivity.
Defined.

Lemma predict_label_matches_index_witness :
  let data :=
    VDict [ ("model-type", VStr "tree");
            ("features", echoed_features Sample.flower);
            ("prediction", VInt 0);
            ("predicted_type", VStr "setosa") ] in
  let envelope :=
    VDict [ ("message", VStr "OK");
            ("method", VStr "POST");
            ("status-code", VInt 200);
            ("timestamp", VStr "2021-11-04T12:00:00.000000");
            ("url", VStr "http://testserver/models/tree");
            ("data", data) ] in
  handle Sample.species Sample.post (POST_predict "tree" Sample.flower)
    Sample.noon Sample.registry
  = (Ok envelope, Sample.registry) /\
  getitem envelope "data" = Ok data /\
  exists z member,
    getitem data "model-type" = Ok (VStr "tree") /\
    getitem data "prediction" = Ok (VInt z) /\
    getitem data "predicted_type" = Ok (VStr (enum_name member)) /\
    In member Sample.species /\
    snd member = z.
Proof.
  intros data envelope.
  split; [vm_compute; reflexivity |]. split; [reflexivity |].
  apply (predict_label_matches_index Sample.species Sample.post "tree"
           Sample.flower Sample.noon Sample.registry envelope Sample.registry
           data);
    vm_compute; reflexivity.
Defined.

Lemma predict_empty_prediction_raises_witness :
  let before := [Sample.wrapper "svc" Sample.stump 2 90] in
  let m := Sample.wrapper "tree" Edge.mute 1 0 in
  forallb (skipped "tree") before = true /\
  has_type "tree" m = true /\
  getitem m "model" = Ok (VObj Edge.mute) /\
  predict Edge.mute (hidden Sample.noon) (feature_vector Sample.flower)
  = Ok [] /\
  handle Sample.species Sample.post (POST_predict "tree" Sample.flower)
    Sample.noon (before ++ m :: [])%list
  = (Raise IndexError, (before ++ m :: [])%list).
Proof.
  intros before m. do 4 (split; [vm_compute; reflexivity |]).
  apply (predict_empty_prediction_raises Sample.species Sample.post "tree"
           Sample.flower Sample.noon before m [] Edge.mute);
    vm_compute; reflexivity.
Defined.

Lemma predict_without_classifier_raises_witness :
  let before := [Sample.wrapper "svc" Sample.stump 2 90] in
  let d := [ ("type", VStr "tree"); ("params", VDict []);
             ("metrics", VDict []) ] in
  forallb (skipped "tree") before = true /\
  has_type "tree" (VDict d) = true /\
  dict_get d "model" = None /\
  handle Sample.species Sample.post (POST_predict "tree" Sample.flower)
    Sample.noon (before ++ VDict d :: [])%list
  = (Raise (KeyError "model"), (before ++ VDict d :: [])%list).
Proof.
  intros before d. do 3 (split; [vm_compute; reflexivity |]).
  apply (predict_without_classifier_raises Sample.species Sample.post "tree"
           Sample.flower Sample.noon before d []);
    vm_compute; reflexivity.
Defined.

Lemma models_list_fails_on_first_unlistable_witness :
  let before := [Sample.wrapper "tree" Sample.stump 1 95] in
  forallb listable before = true /\
  listable Edge.no_metrics = false /\
  exists e,
    handle Sample.species Sample.get GET_models_list Sample.noon
      (before ++ Edge.no_metrics :: [Sample.wrapper "svc" Sample.stump 2 90])%list
    = (Raise e,
       (before ++ Edge.no_metrics
          :: [Sample.wrapper "svc" Sample.stump 2 90])%list) /\
    (getitem Edge.no_metrics "type" = Raise e \/
     (exists ty,
         getitem Edge.no_metrics "type" = Ok ty /\
         getitem Edge.no_metrics "params" = Raise e) \/
     (exists ty params,
         getitem Edge.no_metrics "type" = Ok ty /\
         getitem Edge.no_metrics "params" = Ok params /\
         getitem Edge.no_metrics "metrics" = Raise e)).
Proof.
  intros before. do 2 (split; [vm_compute; reflexivity |]).
  apply (models_list_fails_on_first_unlistable Sample.species Sample.get
           Sample.noon before Edge.no_metrics
           [Sample.wrapper "svc" Sample.stump 2 90]);
    vm_compute; reflexivity.
Defined.

Lemma listed_types_are_the_served_types_witness :
  let entries :=
    [ VDict [ ("type", VStr "tree");
              ("parameters", VDict [("max_depth", VInt 1)]);
              ("accuracy", VDict [("accuracy", VInt 95)]) ];
      VDict [ ("type", VStr "svc");
              ("parameters", VDict [("max_depth", VInt 2)]);
              ("accuracy", VDict [("accuracy", VInt 90)]) ];
      VDict [ ("type", VStr "tree");
              ("parameters", VDict [("max_depth", VInt 3)]);
              ("accuracy", VDict [("accuracy", VInt 10)]) ] ] in
  let listing :=
    VDict [ ("message", VStr "OK"); ("method", VStr "GET");
            ("status-code", VInt 200);
            ("timestamp", VStr "2021-11-04T12:00:00.000000");
            ("url", VStr "http://testserver/models");
            ("data", VList entries) ] in
  registry_ok Sample.registry = true /\
  handle Sample.species Sample.get GET_models_list Sample.noon Sample.registry
  = (Ok listing, Sample.registry) /\
  getitem listing "data" = Ok (VList entries) /\
  ((exists entry, In entry entries /\ getitem entry "type" = Ok (VStr "svc"))
   <->
   ~ (exists envelope,
         fst (handle Sample.species Sample.post
                (POST_predict "svc" Sample.flower) Sample.later
                Sample.registry)
         = Ok envelope /\
         getitem envelope "status-code" = Ok (VInt 400))).
Proof.
  intros entries listing. do 3 (split; [vm_compute; reflexivity |]).
  apply (listed_types_are_the_served_types Sample.species Sample.get
           Sample.post "svc" Sample.flower Sample.noon Sample.later
           Sample.registry listing Sample.registry entries);
    vm_compute; reflexivity.
Defined.
